(** * use-form-validator: validator registry, schema resolver, form controller

    A shallow embedding of [src/validators.js] and [src/useFormValidator.js].

    JavaScript values are a tagged union [JsVal]; numbers are IEEE-754
    doubles (primitive floats); strings are sequences of one-byte characters
    (a code unit per character, so [length] agrees with JavaScript on the
    Latin-1 range); plain objects used as dictionaries are finite maps from
    own property names to values, read through their prototype: a name that
    is not an own property reads the member of [Object.prototype] of that
    name, if there is one.  Function values are first-order: the
    twelve functions of [builtInValidators], the closures that [compose] and
    [createValidator] return, the functions of [Object.prototype], and
    functions supplied by the caller, which are interpreted by the host and
    do not use [this].  A call either returns a value or throws. *)

From Stdlib Require Import PrimFloat Uint63 ZArith Ascii String.
From stdpp Require Import gmap strings list fin_maps.

Local Open Scope string_scope.
Local Open Scope list_scope.

(** ** Completion of a call *)

Inductive Res (A : Type) : Type :=
| Ok (a : A)
| Throw.
Arguments Ok {A} a.
Arguments Throw {A}.

#[global] Instance Res_ret : MRet Res := fun _ a => Ok a.
#[global] Instance Res_bind : MBind Res := fun _ _ k m =>
  match m with
  | Ok a => k a
  | Throw => Throw
  end.

(** ** Values *)

(** The functions stored in [builtInValidators]. *)
Inductive BuiltIn : Type :=
| required | email | minLength | maxLength | pattern | number
| min | max | matches | url | date | compose.

(** The functions that every plain object inherits from
    [Object.prototype]. *)
Inductive Proto : Type :=
| p_constructor | p_toString | p_toLocaleString | p_valueOf
| p_hasOwnProperty | p_isPrototypeOf | p_propertyIsEnumerable
| p_defineGetter | p_defineSetter | p_lookupGetter | p_lookupSetter.

#[warnings="-register-all"]
Inductive JsVal : Type :=
| VUndefined
| VNull
| VBool (b : bool)
| VNum (n : float)
| VStr (s : string)
| VArr (items : list JsVal)
| VObj (props : gmap string JsVal)
| VBuiltIn (b : BuiltIn)                       (* builtInValidators.<b> *)
| VComposed (validators : list JsVal)          (* compose(...validators) *)
| VCreated (validatorFn defaultMessage : JsVal) (* createValidator(fn, msg) *)
| VUser (id : nat)                             (* a function of the caller *)
| VProto (p : Proto)                           (* Object.prototype.<p> *)
| VObjectPrototype.                            (* Object.prototype itself *)

(** [typeof v] *)
Inductive JsType : Type :=
| TUndefined | TObject | TBoolean | TNumber | TString | TFunction.

Definition typeof (v : JsVal) : JsType :=
  match v with
  | VUndefined => TUndefined
  | VNull | VArr _ | VObj _ | VObjectPrototype => TObject
  | VBool _ => TBoolean
  | VNum _ => TNumber
  | VStr _ => TString
  | VBuiltIn _ | VComposed _ | VCreated _ _ | VUser _ | VProto _ => TFunction
  end.

Definition is_string (v : JsVal) : bool :=
  match typeof v with TString => true | _ => false end.
Definition is_function (v : JsVal) : bool :=
  match typeof v with TFunction => true | _ => false end.
Definition is_object (v : JsVal) : bool :=
  match typeof v with TObject => true | _ => false end.

(** [Array.isArray(v)] *)
Definition isArray (v : JsVal) : bool :=
  match v with VArr _ => true | _ => false end.

(** ToBoolean: [undefined], [null], [false], [0], [-0], [NaN] and ['']
    are falsy, everything else is truthy. *)
Definition truthy (v : JsVal) : bool :=
  match v with
  | VUndefined | VNull => false
  | VBool b => b
  | VNum n => negb (PrimFloat.eqb n 0%float || PrimFloat.is_nan n)
  | VStr s => negb (String.eqb s "")
  | _ => true
  end.

(** [a || b] *)
Definition js_or (a b : JsVal) : JsVal := if truthy a then a else b.

(** The [i]-th actual argument; a missing argument reads [undefined]. *)
Definition arg (i : nat) (args : list JsVal) : JsVal := nth i args VUndefined.

(** A formal parameter with a default, [(x = d) => ...]: the default applies
    when the argument is missing or [undefined]. *)
Definition arg_default (i : nat) (d : JsVal) (args : list JsVal) : JsVal :=
  match arg i args with
  | VUndefined => d
  | v => v
  end.

(** The members of [Object.prototype], by name; [__proto__] is an accessor
    that yields the prototype of the object it is read from. *)
Definition inherited (k : string) : option JsVal :=
  if String.eqb k "constructor" then Some (VProto p_constructor)
  else if String.eqb k "toString" then Some (VProto p_toString)
  else if String.eqb k "toLocaleString" then Some (VProto p_toLocaleString)
  else if String.eqb k "valueOf" then Some (VProto p_valueOf)
  else if String.eqb k "hasOwnProperty" then Some (VProto p_hasOwnProperty)
  else if String.eqb k "isPrototypeOf" then Some (VProto p_isPrototypeOf)
  else if String.eqb k "propertyIsEnumerable" then Some (VProto p_propertyIsEnumerable)
  else if String.eqb k "__defineGetter__" then Some (VProto p_defineGetter)
  else if String.eqb k "__defineSetter__" then Some (VProto p_defineSetter)
  else if String.eqb k "__lookupGetter__" then Some (VProto p_lookupGetter)
  else if String.eqb k "__lookupSetter__" then Some (VProto p_lookupSetter)
  else if String.eqb k "__proto__" then Some VObjectPrototype
  else None.

(** [o[k]] on a plain object: an own property, else the member of
    [Object.prototype] of that name, else [undefined]. *)
Definition get (o : gmap string JsVal) (k : string) : JsVal :=
  match o !! k with
  | Some v => v
  | None => default VUndefined (inherited k)
  end.

(** [Object.keys(o)] *)
Definition object_keys (o : gmap string JsVal) : list string :=
  (map_to_list o).*1.

Definition num_of_nat (n : nat) : float :=
  PrimFloat.of_uint63 (Uint63.of_Z (Z.of_nat n)).

(** ** The host

    What the code takes from the JavaScript runtime and from its caller. *)
Record Host : Type := {
  (* the body of the caller-supplied function [VUser id] *)
  user_fn : nat -> list JsVal -> Res JsVal;
  (* StringToNumber, as in [Number('12')] *)
  number_of_string : string -> float;
  (* Number::toString, as in [`${8}`] *)
  string_of_number : float -> string;
  (* ToPrimitive of an array, object or function *)
  to_primitive : JsVal -> Res JsVal;
  (* reading a property of an array, string, number, boolean or function *)
  get_member : JsVal -> JsVal -> JsVal;
  (* whether two object values are the same object *)
  same_object : JsVal -> JsVal -> bool;
  (* [new RegExp(regex).test(value)] *)
  regexp_test : JsVal -> JsVal -> Res bool;
  (* whether [new URL(value)] returns *)
  url_parses : JsVal -> bool;
  (* [new Date(value).getTime()] *)
  date_getTime : JsVal -> Res float;
  (* a function of [Object.prototype] other than [toString], applied to a
     receiver and arguments *)
  native_call : Proto -> JsVal -> list JsVal -> Res JsVal;
}.

(** ** Coercions and operators *)

Section Coercions.
Context (host : Host).

(** ToString of a primitive value; [to_string] first takes an array, object
    or function to a primitive. *)
Definition to_string_prim (v : JsVal) : Res string :=
  match v with
  | VUndefined => Ok "undefined"
  | VNull => Ok "null"
  | VBool true => Ok "true"
  | VBool false => Ok "false"
  | VNum n => Ok (string_of_number host n)
  | VStr s => Ok s
  | _ => Throw
  end.

Definition to_number_prim (v : JsVal) : Res float :=
  match v with
  | VUndefined => Ok nan
  | VNull => Ok 0%float
  | VBool true => Ok 1%float
  | VBool false => Ok 0%float
  | VNum n => Ok n
  | VStr s => Ok (number_of_string host s)
  | _ => Throw
  end.

Definition is_primitive (v : JsVal) : bool :=
  match typeof v with
  | TObject => match v with VNull => true | _ => false end
  | TFunction => false
  | _ => true
  end.

Definition to_prim (v : JsVal) : Res JsVal :=
  if is_primitive v then Ok v else to_primitive host v.

Definition to_string (v : JsVal) : Res string :=
  p ← to_prim v; to_string_prim p.

(** [Number(v)] *)
Definition to_number (v : JsVal) : Res float :=
  p ← to_prim v; to_number_prim p.

(** [a >= b]: two strings compare by code units, anything else as numbers,
    and a comparison with [NaN] is false. *)
Definition js_ge (a b : JsVal) : Res bool :=
  pa ← to_prim a; pb ← to_prim b;
  match pa, pb with
  | VStr sa, VStr sb => Ok (negb (String.ltb sa sb))
  | _, _ => na ← to_number_prim pa; nb ← to_number_prim pb;
            Ok (PrimFloat.leb nb na)
  end.

(** [a <= b] *)
Definition js_le (a b : JsVal) : Res bool :=
  pa ← to_prim a; pb ← to_prim b;
  match pa, pb with
  | VStr sa, VStr sb => Ok (negb (String.ltb sb sa))
  | _, _ => na ← to_number_prim pa; nb ← to_number_prim pb;
            Ok (PrimFloat.leb na nb)
  end.

(** [a === b] *)
Definition strict_eq (a b : JsVal) : bool :=
  match a, b with
  | VUndefined, VUndefined => true
  | VNull, VNull => true
  | VBool x, VBool y => Bool.eqb x y
  | VNum x, VNum y => PrimFloat.eqb x y
  | VStr x, VStr y => String.eqb x y
  | _, _ =>
      negb (is_primitive a) && negb (is_primitive b) && same_object host a b
  end.

(** [v.length] for a value that is neither [undefined] nor [null]. *)
Definition get_length (v : JsVal) : JsVal :=
  match v with
  | VStr s => VNum (num_of_nat (String.length s))
  | VArr items => VNum (num_of_nat (length items))
  | VObj props => get props "length"
  | VBool _ | VNum _ => VUndefined
  | _ => get_member host v (VStr "length")
  end.

(** [o[k]] for arbitrary [o] and [k]. *)
Definition get_index (o k : JsVal) : Res JsVal :=
  match o with
  | VUndefined | VNull => Throw
  | VObj props => key ← to_string k; Ok (get props key)
  | _ => Ok (get_member host o k)
  end.
End Coercions.

(** ** The e-mail pattern

    [/^[a-zA-Z0-9.!#$%&'*+/=?^_`{|}~-]+@[a-zA-Z0-9-]+(?:\.[a-zA-Z0-9-]+)*$/]:
    neither class contains the separator that follows it, so the match is
    decided by one left-to-right scan. *)

Definition in_range (lo hi c : ascii) : bool :=
  (Ascii.leb lo c && Ascii.leb c hi)%bool.

Definition alnum (c : ascii) : bool :=
  in_range "a" "z" c || in_range "A" "Z" c || in_range "0" "9" c.

Definition local_char (c : ascii) : bool :=
  alnum c || existsb (Ascii.eqb c) (list_ascii_of_string ".!#$%&'*+/=?^_`{|}~-").

Definition domain_char (c : ascii) : bool :=
  alnum c || Ascii.eqb c "-".

(** The part after [@]; [seg] tells whether the current dot-separated
    segment already has a character. *)
Fixpoint match_domain (seg : bool) (s : string) : bool :=
  match s with
  | EmptyString => seg
  | String c s' =>
      if domain_char c then match_domain true s'
      else if Ascii.eqb c "." then seg && match_domain false s'
      else false
  end.

Fixpoint match_local (seen : bool) (s : string) : bool :=
  match s with
  | EmptyString => false
  | String c s' =>
      if local_char c then match_local true s'
      else if Ascii.eqb c "@" then seen && match_domain false s'
      else false
  end.

Definition emailRegex_test (s : string) : bool := match_local false s.

(** ** src/validators.js *)

Section Validators.
Context (host : Host).

Definition required_msg : JsVal := VStr "This field is required".

(** The body of each function of [builtInValidators], applied to its actual
    arguments. *)
Definition builtin (b : BuiltIn) (args : list JsVal) : Res JsVal :=
  match b with
  | required =>
      let value := arg 0 args in
      match value with
      | VNull | VUndefined => Ok required_msg
      | VStr s => if String.eqb s "" then Ok required_msg else Ok (VStr "")
      | VArr items =>
          if Nat.eqb (length items) 0 then Ok required_msg else Ok (VStr "")
      | _ => Ok (VStr "")
      end
  | email =>
      let value := arg 0 args in
      if negb (truthy value) then Ok (VStr "")
      else
        s ← to_string host value;
        Ok (if emailRegex_test s then VStr ""
            else VStr "Please enter a valid email address")
  | minLength =>
      let value := arg 0 args in
      let length := arg_default 1 (VNum 1%float) args in
      if negb (truthy value) then Ok (VStr "")
      else
        ok ← js_ge host (get_length host value) length;
        if ok : bool then Ok (VStr "")
        else
          s ← to_string host length;
          Ok (VStr ("Must be at least " +:+ s +:+ " characters"))
  | maxLength =>
      let value := arg 0 args in
      let length := arg_default 1 (VNum 100%float) args in
      if negb (truthy value) then Ok (VStr "")
      else
        ok ← js_le host (get_length host value) length;
        if ok : bool then Ok (VStr "")
        else
          s ← to_string host length;
          Ok (VStr ("Must be no more than " +:+ s +:+ " characters"))
  | pattern =>
      let value := arg 0 args in
      let regex := arg 1 args in
      let message := arg_default 2 (VStr "Invalid format") args in
      if negb (truthy value) then Ok (VStr "")
      else
        ok ← regexp_test host regex value;
        Ok (if ok : bool then VStr "" else message)
  | number =>
      let value := arg 0 args in
      if negb (truthy value) then Ok (VStr "")
      else
        n ← to_number host value;
        Ok (if negb (PrimFloat.is_nan n) then VStr ""
            else VStr "Must be a number")
  | min =>
      let value := arg 0 args in
      let min := arg 1 args in
      if negb (truthy value) then Ok (VStr "")
      else
        n ← to_number host value;
        ok ← js_ge host (VNum n) min;
        if ok : bool then Ok (VStr "")
        else s ← to_string host min; Ok (VStr ("Must be at least " +:+ s))
  | max =>
      let value := arg 0 args in
      let max := arg 1 args in
      if negb (truthy value) then Ok (VStr "")
      else
        n ← to_number host value;
        ok ← js_le host (VNum n) max;
        if ok : bool then Ok (VStr "")
        else s ← to_string host max; Ok (VStr ("Must be no more than " +:+ s))
  | matches =>
      let value := arg 0 args in
      let fieldToMatch := arg 1 args in
      let values := arg 2 args in
      let message := arg_default 3 (VStr "Fields do not match") args in
      if negb (truthy value) then Ok (VStr "")
      else
        other ← get_index host values fieldToMatch;
        Ok (if strict_eq host value other then VStr "" else message)
  | url =>
      let value := arg 0 args in
      if negb (truthy value) then Ok (VStr "")
      else Ok (if url_parses host value then VStr ""
               else VStr "Please enter a valid URL")
  | date =>
      let value := arg 0 args in
      if negb (truthy value) then Ok (VStr "")
      else
        t ← date_getTime host value;
        Ok (if negb (PrimFloat.is_nan t) then VStr ""
            else VStr "Please enter a valid date")
  | compose => Ok (VComposed args)
  end.

(** The class that [Object.prototype.toString] reports for a receiver. *)
Definition class_of (this : JsVal) : string :=
  match this with
  | VUndefined => "Undefined"
  | VNull => "Null"
  | VBool _ => "Boolean"
  | VNum _ => "Number"
  | VStr _ => "String"
  | VArr _ => "Array"
  | VObj _ | VObjectPrototype => "Object"
  | VBuiltIn _ | VComposed _ | VCreated _ _ | VUser _ | VProto _ => "Function"
  end.

(** A function of [Object.prototype] applied to the receiver [this]. *)
Definition proto_call (p : Proto) (this : JsVal) (args : list JsVal) : Res JsVal :=
  match p with
  | p_toString => Ok (VStr ("[object " +:+ class_of this +:+ "]"))
  | _ => native_call host p this args
  end.

(** [f(...args)], a call without a receiver ([this] is [undefined]): calling
    anything but a function throws. *)
Fixpoint call (f : JsVal) (args : list JsVal) {struct f} : Res JsVal :=
  match f with
  | VBuiltIn b => builtin b args
  | VComposed validators =>
      let value := arg 0 args in
      let values := arg 1 args in
      (fix loop (vs : list JsVal) : Res JsVal :=
         match vs with
         | [] => Ok (VStr "")
         | validator :: vs' =>
             match call validator [value; values] with
             | Ok error => if truthy error then Ok error else loop vs'
             | Throw => Throw
             end
         end) validators
  | VCreated validatorFn defaultMessage =>
      let value := arg 0 args in
      let values := arg 1 args in
      match call validatorFn [value; values] with
      | Ok r =>
          Ok (if truthy r then VStr ""
              else js_or defaultMessage (VStr "Validation failed"))
      | Throw => Throw
      end
  | VUser id => user_fn host id args
  | VProto p => proto_call p VUndefined args
  | _ => Throw
  end.

(** [this[k](...args)] with [f = this[k]]: only the functions of
    [Object.prototype] look at their receiver. *)
Definition call_method (this f : JsVal) (args : list JsVal) : Res JsVal :=
  match f with
  | VProto p => proto_call p this args
  | _ => call f args
  end.

Definition builtInValidators : gmap string JsVal :=
  list_to_map
    [ ("required", VBuiltIn required); ("email", VBuiltIn email);
      ("minLength", VBuiltIn minLength); ("maxLength", VBuiltIn maxLength);
      ("pattern", VBuiltIn pattern); ("number", VBuiltIn number);
      ("min", VBuiltIn min); ("max", VBuiltIn max);
      ("matches", VBuiltIn matches); ("url", VBuiltIn url);
      ("date", VBuiltIn date); ("compose", VBuiltIn compose) ].

Definition createValidator (validatorFn defaultMessage : JsVal) : JsVal :=
  VCreated validatorFn defaultMessage.
End Validators.

(** ** src/useFormValidator.js *)

Record Options : Type := {
  validateOnChange : bool;
  validateOnBlur : bool;
  validateOnSubmit : bool;
  customValidators : gmap string JsVal;
}.

(** [options = {}]: every flag defaults to [true], no custom validators. *)
Definition default_options : Options :=
  {| validateOnChange := true; validateOnBlur := true;
     validateOnSubmit := true; customValidators := ∅ |}.

(** The four [useState] cells. *)
Record State : Type := {
  values : gmap string JsVal;
  touched : gmap string JsVal;
  errors : gmap string JsVal;
  isSubmitting : bool;
}.

(** [...params] in an argument list: arrays and strings are iterable. *)
Definition spread (params : JsVal) : Res (list JsVal) :=
  match params with
  | VArr items => Ok items
  | VStr s => Ok ((fun c => VStr (String c EmptyString)) <$> list_ascii_of_string s)
  | _ => Throw
  end.

(** [const { validator, message, params = [] } = rule] for a [rule] whose
    [typeof] is ['object']: destructuring [null] throws, an array has none of
    the three properties. *)
Definition destructure_rule (rule : JsVal) : Res (JsVal * JsVal * JsVal) :=
  match rule with
  | VNull => Throw
  | VObj props =>
      Ok (get props "validator", get props "message",
          match get props "params" with VUndefined => VArr [] | p => p end)
  | _ => Ok (VUndefined, VUndefined, VArr [])
  end.

Section Resolver.
Context (host : Host).
Context (validationSchema : gmap string JsVal) (options : Options).

(** [{ ...builtInValidators, ...customValidators }] *)
Definition validators : gmap string JsVal :=
  customValidators options ∪ builtInValidators.

(** [validators[key]] *)
Definition validators_at (key : JsVal) : JsVal :=
  match key with
  | VStr s => get validators s
  | _ => VUndefined
  end.

(** The block for a rule given as an object (lines 58-72 inside a list,
    96-108 for a field's whole declaration): [Some e] when it returns [e],
    [None] when control falls through. *)
Definition rule_object (name : string) (value rule : JsVal)
  : Res (option JsVal) :=
  '(validator, message, params) ← destructure_rule rule;
  let failed := js_or message (VStr ("Validation failed for " +:+ name)) in
  r ← (if is_string validator && truthy (validators_at validator) then
         ps ← spread params;
         ok ← call_method host (VObj validators) (validators_at validator)
                (value :: ps);
         Ok (if negb (truthy ok) then Some failed else None)
       else Ok None);
  match r with
  | Some e => Ok (Some e)
  | None =>
      if is_function validator then
        ps ← spread params;
        ok ← call host validator (value :: ps);
        Ok (if negb (truthy ok) then Some failed else None)
      else Ok None
  end.

(** One iteration of [for (const rule of fieldRules)]. *)
Definition rule_step (values : gmap string JsVal) (name : string)
    (value rule : JsVal) : Res (option JsVal) :=
  r ← (if is_string rule && truthy (validators_at rule) then
         error ← call_method host (VObj validators) (validators_at rule) [value];
         Ok (if truthy error then Some error else None)
       else Ok None);
  match r with
  | Some e => Ok (Some e)
  | None =>
      r ← (if is_object rule then rule_object name value rule else Ok None);
      match r with
      | Some e => Ok (Some e)
      | None =>
          if is_function rule then
            error ← call host rule [value; VObj values];
            Ok (if truthy error then Some error else None)
          else Ok None
      end
  end.

Fixpoint rules_loop (values : gmap string JsVal) (name : string)
    (value : JsVal) (fieldRules : list JsVal) : Res JsVal :=
  match fieldRules with
  | [] => Ok (VStr "")
  | rule :: rest =>
      match rule_step values name value rule with
      | Ok (Some e) => Ok e
      | Ok None => rules_loop values name value rest
      | Throw => Throw
      end
  end.

(** [validateField(name, value)]; [values] is the form's value map of the
    render in which the callback was created. *)
Definition validateField (values : gmap string JsVal) (name : string)
    (value : JsVal) : Res JsVal :=
  let fieldRules := get validationSchema name in
  if negb (truthy fieldRules) then Ok (VStr "")
  else
    match fieldRules with
    | VArr rules => rules_loop values name value rules
    | _ =>
        if is_string fieldRules && truthy (validators_at fieldRules) then
          error ← call_method host (VObj validators)
                     (validators_at fieldRules) [value];
          Ok (js_or error (VStr ""))
        else if is_function fieldRules then
          error ← call host fieldRules [value; VObj values];
          Ok (js_or error (VStr ""))
        else if is_object fieldRules then
          r ← rule_object name value fieldRules;
          Ok (default (VStr "") r)
        else Ok (VStr "")
    end.
End Resolver.

(** ** The hook's callbacks

    A callback reads the state of the render that created it ([st]) and
    queues updates; the state it leaves is [st] with the queued updates
    applied in order.  Each callback below is run on a freshly rendered
    state. *)

(** What a handler does besides updating the state. *)
Inductive Effect : Type :=
| Raised                                       (* an exception leaves the handler *)
| Invoked (formValues : gmap string JsVal)     (* [onSubmit(values, helpers)] was called *)
| ConsoleError.                                (* [console.error(...)] *)

(** The argument of [resetForm]. *)
Inductive ResetArg : Type :=
| NoArg                                  (* omitted or [undefined] *)
| FalsyArg                               (* [null], or another falsy value *)
| ObjectArg (newValues : gmap string JsVal).

(** What [onSubmit] does with the helpers it is handed, in order, and
    whether it throws or its promise rejects. *)
Inductive Helper : Type :=
| SetErrors (update : gmap string JsVal -> gmap string JsVal)
| ResetForm (newValues : ResetArg).

Record Run : Type := { helpers : list Helper; fails : bool }.

Definition Callback : Type := gmap string JsVal -> Run.

Definition set_values (f : gmap string JsVal -> gmap string JsVal) (st : State) : State :=
  {| values := f (values st); touched := touched st;
     errors := errors st; isSubmitting := isSubmitting st |}.
Definition set_touched (f : gmap string JsVal -> gmap string JsVal) (st : State) : State :=
  {| values := values st; touched := f (touched st);
     errors := errors st; isSubmitting := isSubmitting st |}.
Definition set_errors (f : gmap string JsVal -> gmap string JsVal) (st : State) : State :=
  {| values := values st; touched := touched st;
     errors := f (errors st); isSubmitting := isSubmitting st |}.
Definition set_isSubmitting (b : bool) (st : State) : State :=
  {| values := values st; touched := touched st;
     errors := errors st; isSubmitting := b |}.

Section Controller.
Context (host : Host).
Context (initialValues validationSchema : gmap string JsVal).
Context (options : Options).

(** The state of the first render. *)
Definition init : State :=
  {| values := initialValues; touched := ∅; errors := ∅;
     isSubmitting := false |}.

Abbreviation validateField := (validateField host validationSchema options).

(** The body of the [forEach] in [validateForm], folded over the schema's
    fields; the accumulator is [(newErrors, hasErrors)]. *)
Definition validateForm_step (st : State)
    (acc : Res (gmap string JsVal * bool)) (field : string)
  : Res (gmap string JsVal * bool) :=
  '(newErrors, hasErrors) ← acc;
  error ← validateField (values st) field (get (values st) field);
  Ok (if truthy error then (<[field := error]> newErrors, true)
      else (newErrors, hasErrors)).

(* The order in which [Object.keys] lists the fields does not show in the
   result: an exception carries no payload and validators are pure. *)
Definition validateForm_loop (st : State) : Res (gmap string JsVal * bool) :=
  foldl (validateForm_step st) (Ok (∅, false)) (object_keys validationSchema).

(** [validateForm()]: the state it leaves when run on [st] with updates
    [pending], and its return value. *)
Definition validateForm (st pending : State) : State * Res bool :=
  match validateForm_loop st with
  | Ok (newErrors, hasErrors) =>
      (set_errors (fun _ => newErrors) pending, Ok (negb hasErrors))
  | Throw => (pending, Throw)
  end.

(** [handleChange({ target: { name, value } })] *)
Definition handleChange (name : string) (value : JsVal) (st : State)
  : State * list Effect :=
  let st1 := set_values (fun prev => <[name := value]> prev) st in
  if validateOnChange options && truthy (get (touched st) name) then
    match validateField (values st) name value with
    | Ok error => (set_errors (fun prev => <[name := error]> prev) st1, [])
    | Throw => (st1, [Raised])
    end
  else (st1, []).

(** [setValue(name, value)] *)
Definition setValue (name : string) (value : JsVal) (st : State)
  : State * list Effect :=
  let st1 := set_values (fun prev => <[name := value]> prev) st in
  if validateOnChange options && truthy (get (touched st) name) then
    match validateField (values st) name value with
    | Ok error => (set_errors (fun prev => <[name := error]> prev) st1, [])
    | Throw => (st1, [Raised])
    end
  else (st1, []).

(** [handleBlur({ target: { name } })] *)
Definition handleBlur (name : string) (st : State) : State * list Effect :=
  let st1 := set_touched (fun prev => <[name := VBool true]> prev) st in
  if validateOnBlur options then
    match validateField (values st) name (get (values st) name) with
    | Ok error => (set_errors (fun prev => <[name := error]> prev) st1, [])
    | Throw => (st1, [Raised])
    end
  else (st1, []).

(** [resetForm(newValues = {})] *)
Definition resetForm (a : ResetArg) (st : State) : State :=
  let newValues := match a with NoArg => ObjectArg ∅ | _ => a end in
  let v := match newValues with
           | ObjectArg o => o           (* an object is truthy *)
           | _ => initialValues
           end in
  set_isSubmitting false
    (set_errors (fun _ => ∅) (set_touched (fun _ => ∅) (set_values (fun _ => v) st))).

Definition run_helper (st : State) (h : Helper) : State :=
  match h with
  | SetErrors update => set_errors update st
  | ResetForm a => resetForm a st
  end.

(** [handleSubmit(onSubmit)(e)]; [None] is a missing (falsy) [onSubmit]. *)
Definition handleSubmit (onSubmit : option Callback) (st : State)
  : State * list Effect :=
  let st1 :=
    set_touched
      (fun _ => foldl (fun acc key => <[key := VBool true]> acc) ∅
                  (object_keys (values st))) st in
  let '(st2, isValid) :=
    if validateOnSubmit options then validateForm st st1 else (st1, Ok true) in
  match isValid with
  | Throw => (st2, [Raised])
  | Ok isValid =>
      let st3 := set_isSubmitting true st2 in
      match onSubmit with
      | Some cb =>
          if isValid : bool then
            let r := cb (values st) in
            let st4 := foldl run_helper st3 (helpers r) in
            (set_isSubmitting false st4,
             Invoked (values st) :: (if fails r then [ConsoleError] else []))
          else (set_isSubmitting false st3, [])
      | None => (set_isSubmitting false st3, [])
      end
  end.

(** [getFieldProps(name)], without the two handlers it also packages. *)
Record FieldProps : Type := { fp_name : string; fp_value : JsVal }.

Definition getFieldProps (name : string) (st : State) : FieldProps :=
  {| fp_name := name; fp_value := js_or (get (values st) name) (VStr "") |}.

(** [Object.keys(errors).length === 0] *)
Definition isValid (st : State) : bool :=
  Nat.eqb (length (object_keys (errors st))) 0.

(** *** Sequences of operations *)
Inductive Op : Type :=
| Change (name : string) (value : JsVal)
| SetValue (name : string) (value : JsVal)
| Blur (name : string)
| Submit (onSubmit : option Callback)
| Reset (a : ResetArg)
| Validate.

Definition step (st : State) (op : Op) : State * list Effect :=
  match op with
  | Change name value => handleChange name value st
  | SetValue name value => setValue name value st
  | Blur name => handleBlur name st
  | Submit onSubmit => handleSubmit onSubmit st
  | Reset a => (resetForm a st, [])
  | Validate =>
      match validateForm st st with
      | (st', Ok _) => (st', [])
      | (st', Throw) => (st', [Raised])
      end
  end.

Definition run (ops : list Op) (st : State) : State :=
  foldl (fun st op => (step st op).1) st ops.

Definition reachable (st : State) : Prop := ∃ ops, st = run ops init.
End Controller.

(** * Vocabulary of the properties *)

(** ** The inputs of the specification's scenarios *)

Module Scenario.
(** [{email: ['required', 'email']}] *)
Definition schemaA : gmap string JsVal :=
  {[ "email" := VArr [VStr "required"; VStr "email"] ]}.

(** [{password: [{validator: 'minLength', params: [8], message: 'too short'}]}] *)
Definition ruleB : JsVal :=
  VObj (list_to_map [ ("validator", VStr "minLength");
                      ("params", VArr [VNum 8%float]);
                      ("message", VStr "too short") ]).
Definition schemaB : gmap string JsVal := {[ "password" := VArr [ruleB] ]}.

(** [{name: 'required'}] *)
Definition schemaC : gmap string JsVal := {[ "name" := VStr "required" ]}.

(** A host for closed examples: the caller's function 0 returns [false],
    every other one the string ['Must be a multiple of 3']; no platform
    object is consulted by the examples. *)
Definition host0 : Host :=
  {| user_fn := fun id _ =>
       match id with
       | 0 => Ok (VBool false)
       | _ => Ok (VStr "Must be a multiple of 3")
       end;
     number_of_string := fun _ => nan;
     string_of_number := fun _ => "NaN";
     to_primitive := fun _ => Ok (VStr "[object Object]");
     get_member := fun _ _ => VUndefined;
     same_object := fun _ _ => false;
     regexp_test := fun _ _ => Throw;
     url_parses := fun _ => false;
     date_getTime := fun _ => Ok nan;
     native_call := fun _ _ _ => Throw |}.
End Scenario.

(** ** Rule lists *)

(** In the specification's words: the entries are "evaluated in order, first
    non-empty error wins"; an exception before that error propagates. *)
Fixpoint first_error (results : list (Res JsVal)) : Res JsVal :=
  match results with
  | [] => Ok (VStr "")
  | Ok e :: rest => if truthy e then Ok e else first_error rest
  | Throw :: _ => Throw
  end.

(** A rule passes when its validator returns a falsy value. *)
Definition passes (r : Res JsVal) : Prop := exists e, r = Ok e /\ truthy e = false.

(** What the validators named by [names] return on [value], in list order;
    a name the registry does not know contributes nothing. *)
Definition named_results (host : Host) (options : Options) (value : JsVal)
    (names : list string) : list (Res JsVal) :=
  omap (fun n => let f := get (validators options) n in
                 if truthy f
                 then Some (call_method host (VObj (validators options)) f [value])
                 else None) names.

(** ** Rules that name a validator *)

(** The two rule shapes that name a validator by a string. *)
Definition names_validator (rule : JsVal) (v : string) : Prop :=
  rule = VStr v \/ exists props, rule = VObj props /\ props !! "validator" = Some (VStr v).

(** ** Validation of the whole form *)

Section FormValidation.
Context (host : Host).
Context (validationSchema : gmap string JsVal) (options : Options).

(** The error of field [f] as [validateForm] computes it in state [st]. *)
Definition field_error (st : State) (f : string) : Res JsVal :=
  validateField host validationSchema options (values st) f (get (values st) f).

(** Field [f] fails validation in [st] with the error [e]. *)
Definition field_fails (st : State) (f : string) (e : JsVal) : Prop :=
  is_Some (validationSchema !! f) /\ field_error st f = Ok e /\ truthy e = true.

(** The validation of every field of the schema returns. *)
Definition validation_returns (st : State) : Prop :=
  forall f, is_Some (validationSchema !! f) -> exists e, field_error st f = Ok e.

(** The accumulator of the [forEach] after the fields [done]. *)
Definition loop_inv (st : State) (done : list string)
    (m : gmap string JsVal) (b : bool) : Prop :=
  (forall f e, m !! f = Some e <->
     f ∈ done /\ field_error st f = Ok e /\ truthy e = true)
  /\ (b = true <-> exists f e, f ∈ done /\ field_error st f = Ok e /\ truthy e = true).

End FormValidation.



(** The callback, if any, does not call the [resetForm] it is handed. *)
Definition never_resets (onSubmit : option Callback) : Prop :=
  forall cb vals, onSubmit = Some cb ->
    Forall (fun h => match h with ResetForm _ => False | _ => True end)
      (helpers (cb vals)).

(** ** The shape of an accepted e-mail address *)

Fixpoint all_chars (P : ascii -> bool) (s : string) : bool :=
  match s with
  | EmptyString => true
  | String c s' => P c && all_chars P s'
  end.

(** The segments joined by dots. *)
Fixpoint join_dots (seg : string) (segs : list string) : string :=
  match segs with
  | [] => seg
  | g :: gs => seg +:+ "." +:+ join_dots g gs
  end.

(** A non-empty run of characters of the domain class. *)
Definition domain_segment (g : string) : Prop :=
  g <> "" /\ all_chars domain_char g = true.

(** [local@seg.seg...seg], read off the pattern: a non-empty local part,
    then one or more non-empty domain segments separated by dots. *)
Definition email_shape (s : string) : Prop :=
  exists l g gs,
    s = l +:+ "@" +:+ join_dots g gs
    /\ l <> "" /\ all_chars local_char l = true
    /\ Forall domain_segment (g :: gs).

(** ** Sequences of operations *)

(** Every entry of the touched map is [true]. *)
Definition touched_marks (st : State) : Prop :=
  forall k v, touched st !! k = Some v -> v = VBool true.

(** Operations other than [change], [setValue] and [resetForm], with a
    submit callback that does not call [resetForm] either. *)
Definition keeps_values (op : Op) : Prop :=
  match op with
  | Blur _ | Validate => True
  | Submit onSubmit => never_resets onSubmit
  | Change _ _ | SetValue _ _ | Reset _ => False
  end.

(** * Properties *)

(** ** Basic facts *)

Lemma truthy_js_or a b : truthy a = false -> js_or a b = b.
Proof. unfold js_or. now intros ->. Qed.

Lemma js_or_truthy a b : truthy a = true -> js_or a b = a.
Proof. unfold js_or. now intros ->. Qed.

Lemma get_Some (o : gmap string JsVal) k v : o !! k = Some v -> get o k = v.
Proof. unfold get. now intros ->. Qed.

Lemma get_None (o : gmap string JsVal) k :
  o !! k = None -> inherited k = None -> get o k = VUndefined.
Proof. unfold get. now intros -> ->. Qed.

Lemma get_inherited (o : gmap string JsVal) k v :
  o !! k = None -> inherited k = Some v -> get o k = v.
Proof. unfold get. now intros -> ->. Qed.

Lemma inherited_truthy k v : inherited k = Some v -> truthy v = true.
Proof.
  unfold inherited. repeat case_match; intros [= <-]; reflexivity.
Qed.

Lemma call_method_builtin host this b args :
  call_method host this (VBuiltIn b) args = builtin host b args.
Proof. reflexivity. Qed.

Lemma elem_of_object_keys (o : gmap string JsVal) k :
  k ∈ object_keys o <-> is_Some (o !! k).
Proof.
  unfold object_keys. rewrite list_elem_of_fmap. split.
  - intros [[k' v] [-> Hin]]. apply elem_of_map_to_list in Hin. eauto.
  - intros [v Hv]. exists (k, v). split; [done|]. now apply elem_of_map_to_list.
Qed.

(** ** The built-in validators on the inputs of tests/validators.test.js *)

Example required_on_test_inputs host :
  Forall (fun v => call host (VBuiltIn required) [v] = Ok required_msg)
    [VStr ""; VNull; VUndefined; VArr []]
  /\ Forall (fun v => call host (VBuiltIn required) [v] = Ok (VStr ""))
       [VStr "value"; VNum 0%float; VBool false; VArr [VNum 1%float]].
Proof. split; repeat constructor. Qed.

Example email_on_test_inputs host :
  Forall (fun s => call host (VBuiltIn email) [VStr s] = Ok (VStr ""))
    [""; "test@example.com"; "user.name+tag@example.co.uk"]
  /\ call host (VBuiltIn email) [VStr "not-an-email"]
     = Ok (VStr "Please enter a valid email address").
Proof. split; repeat constructor. Qed.

Example minLength_on_test_inputs host :
  Forall (fun s => call host (VBuiltIn minLength) [VStr s; VNum 3%float] = Ok (VStr ""))
    [""; "abc"; "abcd"]
  /\ call host (VBuiltIn minLength) [VStr "ab"; VNum 3%float]
     = Ok (VStr ("Must be at least " +:+ string_of_number host 3%float +:+ " characters")).
Proof. split; repeat constructor. Qed.

Example maxLength_on_test_inputs host :
  Forall (fun s => call host (VBuiltIn maxLength) [VStr s; VNum 3%float] = Ok (VStr ""))
    [""; "abc"; "ab"]
  /\ call host (VBuiltIn maxLength) [VStr "abcd"; VNum 3%float]
     = Ok (VStr ("Must be no more than " +:+ string_of_number host 3%float +:+ " characters")).
Proof. split; repeat constructor. Qed.

(** ** Scenario B: a named validator inside an object rule *)

(** C1 (the code departs from the specification): with the schema
    [{password: [{validator: 'minLength', params: [8], message: 'too short'}]}]
    the call [minLength('abc', 8)] returns its own non-empty message, which
    the object-rule branch reads as success, so resolving ['abc'] returns the
    empty string; the supplied message ['too short'] comes back for a
    password that is long enough. *)
Theorem scenario_B_object_rule_inverted (host : Host) (vals : gmap string JsVal) :
  (exists m, call host (VBuiltIn minLength) [VStr "abc"; VNum 8%float] = Ok m
             /\ truthy m = true)
  /\ validateField host Scenario.schemaB default_options vals "password"
       (VStr "abc") = Ok (VStr "")
  /\ validateField host Scenario.schemaB default_options vals "password"
       (VStr "abcdefgh") = Ok (VStr "too short").
Proof.
  split; [|split].
  - eexists. split; [vm_compute; reflexivity|]. reflexivity.
  - vm_compute. reflexivity.
  - vm_compute. reflexivity.
Qed.

(** ** resetForm *)

Lemma resetForm_touched initialValues a st :
  touched (resetForm initialValues a st) = ∅.
Proof. reflexivity. Qed.

Lemma resetForm_errors initialValues a st :
  errors (resetForm initialValues a st) = ∅.
Proof. reflexivity. Qed.

Lemma resetForm_isSubmitting initialValues a st :
  isSubmitting (resetForm initialValues a st) = false.
Proof. reflexivity. Qed.

(** Only a falsy argument other than [undefined] reaches the right operand
    of [newValues || initialValues]. *)
Lemma resetForm_falsy_restores initialValues st :
  values (resetForm initialValues FalsyArg st) = initialValues.
Proof. reflexivity. Qed.

(** C2 (the code departs from the specification): after any sequence of operations,
    [resetForm()] without an argument clears the touched map, the error map
    and the submitting flag, but it sets the form values to the empty object
    that the parameter default supplies, not to the initial values: with the
    initial values [{name: 'bob'}] the field [name] is gone after the
    reset. *)
Theorem resetForm_no_argument_empties_values (host : Host)
    (initialValues validationSchema : gmap string JsVal) (options : Options)
    (ops : list Op) :
  let st := resetForm initialValues NoArg
              (run host initialValues validationSchema options ops
                 (init initialValues)) in
  values st = ∅ /\ touched st = ∅ /\ errors st = ∅ /\ isSubmitting st = false
  /\ values (init {[ "name" := VStr "bob" ]}) !! "name" = Some (VStr "bob")
  /\ values (resetForm {[ "name" := VStr "bob" ]} NoArg
               (init {[ "name" := VStr "bob" ]})) !! "name" = None.
Proof. repeat split. Qed.

(** ** isValid *)

Lemma isValid_iff_no_keys (st : State) : isValid st = true <-> errors st = ∅.
Proof.
  unfold isValid, object_keys. rewrite Nat.eqb_eq, length_fmap.
  split; intros H.
  - apply map_to_list_empty_iff. now apply length_zero_iff_nil.
  - now rewrite H, map_to_list_empty.
Qed.

(** One direction of the derived flag's reading holds in every state. *)
Lemma isValid_no_error_entries (st : State) :
  isValid st = true -> forall k e, errors st !! k = Some e -> truthy e = false.
Proof.
  intros H k e. apply isValid_iff_no_keys in H. rewrite H, lookup_empty.
  discriminate.
Qed.

(** C3 (the code departs from the specification): a blur on a field that passes
    validation is a reachable state whose error map is [{name: ''}]: it has
    no non-empty entry, yet [isValid], which counts the keys of the error
    map, is false there. *)
Theorem isValid_false_after_passing_blur (host : Host) :
  let initialValues : gmap string JsVal := {[ "name" := VStr "bob" ]} in
  let st := run host initialValues Scenario.schemaC default_options
              [Blur "name"] (init initialValues) in
  reachable host initialValues Scenario.schemaC default_options st
  /\ errors st = {[ "name" := VStr "" ]}
  /\ (forall k e, errors st !! k = Some e -> truthy e = false)
  /\ isValid st = false.
Proof.
  intros initialValues st.
  assert (He : errors st = {[ "name" := VStr "" ]}) by (vm_compute; reflexivity).
  split; [now exists [Blur "name"]|]. split; [exact He|]. split.
  - intros k e. rewrite He. intros [_ <-]%lookup_singleton_Some. reflexivity.
  - vm_compute. reflexivity.
Qed.

(** ** createValidator *)

Lemma call_createValidator host validatorFn defaultMessage args r :
  call host validatorFn [arg 0 args; arg 1 args] = Ok r ->
  call host (createValidator validatorFn defaultMessage) args =
    Ok (if truthy r then VStr ""
        else js_or defaultMessage (VStr "Validation failed")).
Proof. intros H. cbn [createValidator call]. now rewrite H. Qed.

(** The parts of the factory's contract that the code meets: the result is
    the empty string exactly when the predicate is truthy, a non-empty
    string message is returned as it is, and a missing message is replaced
    by the literal default. *)
Lemma createValidator_empty_iff host validatorFn defaultMessage args r :
  call host validatorFn [arg 0 args; arg 1 args] = Ok r ->
  call host (createValidator validatorFn defaultMessage) args = Ok (VStr "")
  <-> truthy r = true.
Proof.
  intros H. rewrite (call_createValidator _ _ _ _ _ H).
  destruct (truthy r); [easy|]. split; [|discriminate].
  unfold js_or. destruct (truthy defaultMessage) eqn:E.
  - intros [= Hm]. rewrite Hm in E. discriminate.
  - discriminate.
Qed.

Lemma createValidator_string_message host validatorFn s args r :
  call host validatorFn [arg 0 args; arg 1 args] = Ok r ->
  truthy r = false -> s <> "" ->
  call host (createValidator validatorFn (VStr s)) args = Ok (VStr s).
Proof.
  intros H Hr Hs. rewrite (call_createValidator _ _ _ _ _ H), Hr.
  rewrite js_or_truthy; [done|]. cbn. now apply negb_true_iff, String.eqb_neq.
Qed.

Lemma createValidator_missing_message host validatorFn args r :
  call host validatorFn [arg 0 args; arg 1 args] = Ok r ->
  truthy r = false ->
  call host (createValidator validatorFn VUndefined) args
  = Ok (VStr "Validation failed").
Proof. intros H Hr. now rewrite (call_createValidator _ _ _ _ _ H), Hr. Qed.

(** C4 (the code departs from the specification): when the predicate is falsy and
    the default message is a function, the validator built by
    [createValidator] returns that function value itself; the function is
    not called, so no message string is computed. *)
Theorem createValidator_function_message_not_invoked
    (host : Host) (validatorFn defaultMessage : JsVal) (args : list JsVal)
    (r : JsVal) :
  call host validatorFn [arg 0 args; arg 1 args] = Ok r ->
  truthy r = false ->
  is_function defaultMessage = true ->
  call host (createValidator validatorFn defaultMessage) args
  = Ok defaultMessage
  /\ typeof defaultMessage = TFunction.
Proof.
  intros H Hr Hf. rewrite (call_createValidator _ _ _ _ _ H), Hr. split.
  - rewrite js_or_truthy; [done|]. now destruct defaultMessage.
  - unfold is_function in Hf. now destruct (typeof defaultMessage).
Qed.

(** The call of the repository's test 'should work with custom message',
    [createValidator(pred, msgFn)('5', 3)]: the message function would
    compute ['Must be a multiple of 3'], the validator returns the function. *)
Lemma createValidator_function_message_witness :
  call Scenario.host0 (VUser 1) [VStr "5"; VNum 3%float]
  = Ok (VStr "Must be a multiple of 3")
  /\ call Scenario.host0 (createValidator (VUser 0) (VUser 1))
       [VStr "5"; VNum 3%float] = Ok (VUser 1)
  /\ typeof (VUser 1) = TFunction.
Proof.
  split; [reflexivity|].
  apply (createValidator_function_message_not_invoked Scenario.host0
           (VUser 0) (VUser 1) [VStr "5"; VNum 3%float] (VBool false));
    reflexivity.
Defined.

(** ** getFieldProps *)

(** Own keys, and missing keys that [Object.prototype] does not have:
    [getFieldProps(name).value] is the stored value when that value is
    truthy and the empty string when it is falsy or missing; [0], [-0],
    [NaN], [false], [null], [undefined] and [''] are all falsy. *)
Lemma getFieldProps_own_value (name : string) (st : State) :
  fp_name (getFieldProps name st) = name
  /\ (forall v, values st !! name = Some v -> truthy v = true ->
      fp_value (getFieldProps name st) = v)
  /\ (forall v, values st !! name = Some v -> truthy v = false ->
      fp_value (getFieldProps name st) = VStr "")
  /\ (values st !! name = None -> inherited name = None ->
      fp_value (getFieldProps name st) = VStr "")
  /\ Forall (fun v => truthy v = false)
       [ VNum 0%float; VNum (-0)%float; VNum nan; VBool false; VNull;
         VUndefined; VStr "" ].
Proof.
  unfold getFieldProps; cbn [fp_name fp_value]. repeat split.
  - intros v Hv Ht. rewrite (get_Some _ _ _ Hv). now apply js_or_truthy.
  - intros v Hv Ht. rewrite (get_Some _ _ _ Hv). now apply truthy_js_or.
  - intros Hn Hi. now rewrite (get_None _ _ Hn Hi).
  - repeat constructor.
Qed.

(** C10 (the code departs from the specification): for a field name that
    is not a key of the form values but names a member of
    [Object.prototype], [values[name]] reads that member, which is truthy,
    so [getFieldProps(name).value] is the member and not the empty string;
    for ['constructor'] it is the function [Object]. *)
Theorem getFieldProps_missing_key_reads_prototype (name : string) (st : State)
    (member : JsVal) :
  values st !! name = None ->
  inherited name = Some member ->
  fp_value (getFieldProps name st) = member /\ member <> VStr "".
Proof.
  intros Hn Hi. unfold getFieldProps; cbn [fp_value].
  rewrite (get_inherited _ _ _ Hn Hi).
  pose proof (inherited_truthy _ _ Hi) as Ht. split.
  - now apply js_or_truthy.
  - intros ->. discriminate.
Qed.

Lemma getFieldProps_missing_key_reads_prototype_witness :
  fp_value (getFieldProps "constructor" (init {[ "name" := VStr "bob" ]}))
  = VProto p_constructor
  /\ VProto p_constructor <> VStr "".
Proof.
  apply (getFieldProps_missing_key_reads_prototype "constructor"
           (init {[ "name" := VStr "bob" ]}) (VProto p_constructor));
    reflexivity.
Defined.

(** ** Rule lists *)

Lemma first_error_empty_iff results :
  first_error results = Ok (VStr "") <-> Forall passes results.
Proof.
  induction results as [|[e|] rest IH]; cbn.
  - split; [constructor|done].
  - destruct (truthy e) eqn:E.
    + split.
      * intros [= ->]. discriminate.
      * intros H. apply Forall_cons_1 in H as [(e' & [= <-] & He) _]. congruence.
    + rewrite IH. split.
      * intros H. constructor; [now exists e|done].
      * now intros [_ H]%Forall_cons_1.
  - split; [discriminate|].
    intros H. now apply Forall_cons_1 in H as [(e' & [=] & _) _].
Qed.

Lemma first_error_truthy_iff results e :
  truthy e = true ->
  first_error results = Ok e
  <-> exists pre post, results = pre ++ Ok e :: post /\ Forall passes pre.
Proof.
  intros He. induction results as [|[e0|] rest IH]; cbn.
  - split.
    + intros [= <-]. discriminate.
    + intros (pre & post & H & _). now destruct pre.
  - destruct (truthy e0) eqn:E.
    + split.
      * intros [= ->]. exists [], rest. split; [done|constructor].
      * intros ([|p pre] & post & H & Hp); cbn in H.
        -- now injection H as -> _.
        -- injection H as <- _.
           apply Forall_cons_1 in Hp as [(e' & [= <-] & He') _]. congruence.
    + rewrite IH. split.
      * intros (pre & post & -> & Hp). exists (Ok e0 :: pre), post.
        split; [done|]. constructor; [now exists e0|done].
      * intros ([|p pre] & post & H & Hp); cbn in H.
        -- injection H as -> _. congruence.
        -- injection H as <- ->. apply Forall_cons_1 in Hp as [_ Hp]. eauto.
  - split; [discriminate|].
    intros ([|p pre] & post & H & Hp); cbn in H; [discriminate|].
    injection H as <- _. now apply Forall_cons_1 in Hp as [(e' & [=] & _) _].
Qed.

Lemma rule_step_named host options vals name value n :
  rule_step host options vals name value (VStr n) =
    (if truthy (get (validators options) n) then
       error ← call_method host (VObj (validators options))
                 (get (validators options) n) [value];
       Ok (if truthy error then Some error else None)
     else Ok None).
Proof.
  unfold rule_step. cbn [is_string typeof validators_at andb].
  destruct (truthy (get (validators options) n)); [|reflexivity].
  destruct (call_method host (VObj (validators options))
              (get (validators options) n) [value]) as [e|]; [|reflexivity].
  cbn. now destruct (truthy e).
Qed.

Lemma rules_loop_named host options vals name value names :
  rules_loop host options vals name value (VStr <$> names)
  = first_error (named_results host options value names).
Proof.
  induction names as [|n names IH]; [reflexivity|].
  cbn [fmap list_fmap rules_loop]. rewrite rule_step_named.
  unfold named_results. cbn [omap list_omap].
  destruct (truthy (get (validators options) n)); [|exact IH].
  cbn [first_error].
  destruct (call_method host (VObj (validators options))
              (get (validators options) n) [value]) as [e|]; [|reflexivity].
  cbn. destruct (truthy e); [reflexivity|exact IH].
Qed.

(** C5: when a field's schema entry is a list of validator names, resolving
    the field's error runs the named validators in list order and returns
    the first non-empty error; the result is empty exactly when every rule
    passes.  For the schema [{email: ['required', 'email']}] and the value
    [''] this gives ['This field is required']. *)
Theorem rule_list_first_error (host : Host) (validationSchema : gmap string JsVal)
    (options : Options) (vals : gmap string JsVal) (name : string)
    (value : JsVal) (names : list string) :
  validationSchema !! name = Some (VArr (VStr <$> names)) ->
  let results := named_results host options value names in
  let result := validateField host validationSchema options vals name value in
  result = first_error results
  /\ (result = Ok (VStr "") <-> Forall passes results)
  /\ (forall e, truthy e = true ->
        result = Ok e
        <-> exists pre post, results = pre ++ Ok e :: post /\ Forall passes pre).
Proof.
  intros Hs results result.
  assert (Hr : result = first_error results).
  { unfold result, validateField. rewrite (get_Some _ _ _ Hs). cbn [truthy negb].
    apply rules_loop_named. }
  rewrite Hr. split; [done|]. split.
  - apply first_error_empty_iff.
  - intros e He. now apply first_error_truthy_iff.
Qed.

(** Scenario A. *)
Lemma rule_list_first_error_witness :
  validateField Scenario.host0 Scenario.schemaA default_options ∅ "email"
    (VStr "") = Ok (VStr "This field is required").
Proof.
  pose proof (rule_list_first_error Scenario.host0 Scenario.schemaA
                default_options ∅ "email" (VStr "") ["required"; "email"]
                eq_refl) as (_ & _ & H).
  apply (H (VStr "This field is required") eq_refl).
  exists [], [Ok (VStr "")]. split; [reflexivity|constructor].
Defined.

Lemma scenario_A host vals :
  validateField host Scenario.schemaA default_options vals "email" (VStr "")
  = Ok (VStr "This field is required").
Proof. vm_compute. reflexivity. Qed.

(** ** Unknown validator names *)

Lemma validators_at_unknown options v :
  validators options !! v = None -> inherited v = None ->
  truthy (validators_at options (VStr v)) = false.
Proof. intros H Hi. cbn. now rewrite (get_None _ _ H Hi). Qed.

Lemma rule_object_unknown host options name value props v :
  validators options !! v = None -> inherited v = None ->
  props !! "validator" = Some (VStr v) ->
  rule_object host options name value (VObj props) = Ok None.
Proof.
  intros Hv Hi Hp. unfold rule_object. cbn [destructure_rule mbind Res_bind].
  rewrite (get_Some _ _ _ Hp). cbn [is_string typeof andb is_function].
  now rewrite (validators_at_unknown _ _ Hv Hi).
Qed.

Lemma rule_step_unknown host options vals name value rule v :
  validators options !! v = None -> inherited v = None ->
  names_validator rule v ->
  rule_step host options vals name value rule = Ok None.
Proof.
  intros Hv Hi [->|(props & -> & Hp)].
  - rewrite rule_step_named. now rewrite (get_None _ _ Hv Hi).
  - unfold rule_step. cbn [is_string is_object is_function typeof andb mbind Res_bind].
    now rewrite (rule_object_unknown _ _ _ _ _ _ Hv Hi Hp).
Qed.

Lemma rules_loop_skip host options vals name value pre rule post :
  rule_step host options vals name value rule = Ok None ->
  rules_loop host options vals name value (pre ++ rule :: post)
  = rules_loop host options vals name value (pre ++ post).
Proof.
  intros H. induction pre as [|r pre IH]; cbn [app rules_loop].
  - now rewrite H.
  - now rewrite IH.
Qed.

(** A rule that names a validator which the registry neither has nor
    inherits from [Object.prototype] is skipped without an error and
    without an exception: as a field's whole declaration it resolves to the
    empty string, and inside a rule list the field resolves exactly as it
    does with that rule removed. *)
Lemma unknown_plain_name_skipped (host : Host)
    (validationSchema : gmap string JsVal) (options : Options)
    (vals : gmap string JsVal) (name : string) (value : JsVal) (v : string) :
  validators options !! v = None -> inherited v = None ->
  (validationSchema !! name = Some (VStr v) ->
   validateField host validationSchema options vals name value = Ok (VStr ""))
  /\ (forall props,
        validationSchema !! name = Some (VObj props) ->
        props !! "validator" = Some (VStr v) ->
        validateField host validationSchema options vals name value = Ok (VStr ""))
  /\ (forall pre rule post,
        names_validator rule v ->
        validationSchema !! name = Some (VArr (pre ++ rule :: post)) ->
        validateField host validationSchema options vals name value
        = validateField host (<[name := VArr (pre ++ post)]> validationSchema)
            options vals name value).
Proof.
  intros Hv Hi. split; [|split].
  - intros Hs. unfold validateField. rewrite (get_Some _ _ _ Hs).
    destruct (truthy (VStr v)); [|reflexivity]. cbn [negb].
    now rewrite (validators_at_unknown _ _ Hv Hi).
  - intros props Hs Hp. unfold validateField. rewrite (get_Some _ _ _ Hs).
    cbn [truthy negb is_string is_function is_object typeof andb].
    now rewrite (rule_object_unknown _ _ _ _ _ _ Hv Hi Hp).
  - intros pre rule post Hr Hs. unfold validateField.
    rewrite (get_Some _ _ _ Hs), (get_Some _ name (VArr (pre ++ post)))
      by apply lookup_insert_eq.
    cbn [truthy negb]. apply rules_loop_skip. now apply rule_step_unknown with v.
Qed.

(** C7 (the code departs from the specification): a rule that names
    ['toString'], which the registry does not have, is not skipped:
    [validators['toString']] finds the function that the registry object
    inherits from [Object.prototype], which is truthy, so it is called on
    the registry and its result ['[object Object]'] becomes the field's
    error, as a bare string rule and inside a rule list alike. *)
Theorem inherited_name_rule_not_skipped (host : Host)
    (validationSchema : gmap string JsVal) (options : Options)
    (vals : gmap string JsVal) (name : string) (value : JsVal) :
  customValidators options !! "toString" = None ->
  validators options !! "toString" = None
  /\ (validationSchema !! name = Some (VStr "toString") ->
      validateField host validationSchema options vals name value
      = Ok (VStr "[object Object]"))
  /\ (forall post,
        validationSchema !! name = Some (VArr (VStr "toString" :: post)) ->
        validateField host validationSchema options vals name value
        = Ok (VStr "[object Object]")).
Proof.
  intros Hc.
  assert (Hv : validators options !! "toString" = None).
  { unfold validators. now rewrite lookup_union_r. }
  assert (Hg : get (validators options) "toString" = VProto p_toString)
    by now apply get_inherited.
  split; [exact Hv|]. split.
  - intros Hs. unfold validateField. rewrite (get_Some _ _ _ Hs).
    cbn [truthy String.eqb negb is_string typeof validators_at andb].
    now rewrite Hg.
  - intros post Hs. unfold validateField. rewrite (get_Some _ _ _ Hs).
    cbn [truthy negb rules_loop]. rewrite rule_step_named, Hg. reflexivity.
Qed.

Lemma inherited_name_rule_not_skipped_witness :
  validators default_options !! "toString" = None
  /\ validateField Scenario.host0 {[ "nick" := VStr "toString" ]} default_options
       ∅ "nick" (VStr "v") = Ok (VStr "[object Object]").
Proof.
  pose proof (inherited_name_rule_not_skipped Scenario.host0
                {[ "nick" := VStr "toString" ]} default_options ∅ "nick"
                (VStr "v") eq_refl) as (Hv & Hs & _).
  split; [exact Hv|]. apply Hs. reflexivity.
Defined.

(** ** change and setValue *)

Lemma validateField_required_returns host vals v :
  exists e, validateField host Scenario.schemaC default_options vals "name" v = Ok e.
Proof.
  change (validateField host Scenario.schemaC default_options vals "name" v)
    with (error ← builtin host required [v]; Ok (js_or error (VStr ""))).
  destruct v as [| | | |s|items| | | | | | |]; cbn; eauto.
  - destruct (String.eqb s ""); cbn; eauto.
  - destruct (Nat.eqb (length items) 0); cbn; eauto.
Qed.

Lemma validateField_required_empty host vals :
  validateField host Scenario.schemaC default_options vals "name" (VStr "")
  = Ok required_msg.
Proof. reflexivity. Qed.

Lemma scenario_C host initialValues :
  errors (run host initialValues Scenario.schemaC default_options
            [Blur "name"; Change "name" (VStr "")] (init initialValues))
    !! "name" = Some (VStr "This field is required").
Proof.
  unfold run. cbn [foldl step]. unfold handleBlur. cbn [validateOnBlur default_options].
  destruct (validateField_required_returns host (values (init initialValues))
              (get (values (init initialValues)) "name")) as [e ->].
  cbn [fst]. unfold handleChange.
  cbn [validateOnChange default_options touched set_errors set_touched init values andb].
  rewrite (get_Some _ "name" (VBool true)) by apply lookup_insert_eq.
  cbn [truthy]. rewrite validateField_required_empty. cbn [fst errors set_errors].
  apply lookup_insert_eq.
Qed.

(** [handleChange] and [setValue] do the same thing: they never modify the
    touched map, they set [values[name]] to the new value, and they write
    the field's recomputed error into the error map, leaving every other
    entry as it was, exactly when validate-on-change is enabled and
    [touched[name]] is truthy; otherwise the error map is left alone.  After
    [blur('name')] then [change('name', '')] under the schema
    [{name: 'required'}], [errors.name] is ['This field is required']. *)
Lemma change_updates_value_and_gated_error (host : Host)
    (validationSchema : gmap string JsVal) (options : Options)
    (name : string) (value : JsVal) (st : State) :
  let r := handleChange host validationSchema options name value st in
  let gate := validateOnChange options && truthy (get (touched st) name) in
  setValue host validationSchema options name value st = r
  /\ touched r.1 = touched st
  /\ values r.1 = <[name := value]> (values st)
  /\ isSubmitting r.1 = isSubmitting st
  /\ (forall k, k <> name -> errors r.1 !! k = errors st !! k)
  /\ (gate = true ->
      forall e, validateField host validationSchema options (values st) name value = Ok e ->
        errors r.1 = <[name := e]> (errors st) /\ r.2 = [])
  /\ (gate = true ->
      validateField host validationSchema options (values st) name value = Throw ->
        errors r.1 = errors st /\ r.2 = [Raised])
  /\ (gate = false -> errors r.1 = errors st /\ r.2 = [])
  /\ (forall initialValues,
        errors (run host initialValues Scenario.schemaC default_options
                  [Blur "name"; Change "name" (VStr "")] (init initialValues))
          !! "name" = Some (VStr "This field is required")).
Proof.
  intros r gate. subst r. unfold handleChange, setValue. fold gate.
  destruct gate;
    [destruct (validateField host validationSchema options (values st) name value)
       as [e|] eqn:E|]; cbn [fst snd set_errors set_values touched values errors isSubmitting].
  all: repeat split; try done.
  all: try (intros k Hk; now rewrite lookup_insert_ne).
  all: try (intros; apply scenario_C).
  congruence.
Qed.

(** C8 (the code departs from the specification): a field that was never
    touched but whose name is a member of [Object.prototype] passes the test
    [touched[name]], because the touched map inherits a truthy function of
    that name; with validate-on-change enabled, [handleChange] and
    [setValue] then recompute the field's error and write it into the error
    map, while the touched map still has no entry for the field. *)
Theorem change_validates_untouched_inherited_name (host : Host)
    (validationSchema : gmap string JsVal) (options : Options)
    (name : string) (value : JsVal) (st : State) (member e : JsVal) :
  validateOnChange options = true ->
  touched st !! name = None ->
  inherited name = Some member ->
  validateField host validationSchema options (values st) name value = Ok e ->
  let r := handleChange host validationSchema options name value st in
  setValue host validationSchema options name value st = r
  /\ errors r.1 = <[name := e]> (errors st)
  /\ touched r.1 !! name = None.
Proof.
  intros Hv Ht Hi He r. subst r. unfold handleChange, setValue.
  rewrite Hv, (get_inherited _ _ _ Ht Hi), (inherited_truthy _ _ Hi), He.
  cbn. repeat split; done.
Qed.

Lemma change_validates_untouched_inherited_name_witness :
  let r := handleChange Scenario.host0 {[ "toString" := VStr "required" ]}
             default_options "toString" (VStr "") (init ∅) in
  setValue Scenario.host0 {[ "toString" := VStr "required" ]} default_options
    "toString" (VStr "") (init ∅) = r
  /\ errors r.1 = <["toString" := VStr "This field is required"]> ∅
  /\ touched r.1 !! "toString" = None.
Proof.
  apply (change_validates_untouched_inherited_name Scenario.host0
           {[ "toString" := VStr "required" ]} default_options "toString"
           (VStr "") (init ∅) (VProto p_toString)
           (VStr "This field is required")); reflexivity.
Defined.

(** ** submit *)

Section Submit.
Context (host : Host).
Context (initialValues validationSchema : gmap string JsVal).
Context (options : Options).

Lemma touched_all_lookup (keys : list string) (m : gmap string JsVal) k :
  foldl (fun acc key => <[key := VBool true]> acc) m keys !! k
  = if decide (k ∈ keys) then Some (VBool true) else m !! k.
Proof.
  revert m. induction keys as [|key keys IH]; intros m; cbn [foldl].
  - case_decide as H; [|done]. now apply elem_of_nil in H.
  - rewrite IH. destruct (decide (k ∈ keys)) as [Hin|Hnin].
    + rewrite decide_True; [done|]. now right.
    + destruct (decide (k = key)) as [->|Hne].
      * rewrite decide_True by now left. apply lookup_insert_eq.
      * rewrite decide_False.
        -- now apply lookup_insert_ne.
        -- intros [?|?]%elem_of_cons; contradiction.
Qed.

Lemma touched_of_values_lookup (vals : gmap string JsVal) k :
  foldl (fun acc key => <[key := VBool true]> acc) (∅ : gmap string JsVal)
    (object_keys vals) !! k
  = (fun _ => VBool true) <$> (vals !! k).
Proof.
  rewrite touched_all_lookup, lookup_empty.
  case_decide as H; apply elem_of_object_keys in H || rename H into H'.
  - destruct H as [v ->]. reflexivity.
  - destruct (vals !! k) eqn:E; [|reflexivity].
    exfalso. apply H', elem_of_object_keys. eauto.
Qed.

Lemma run_helpers_touched st hs :
  Forall (fun h => match h with ResetForm _ => False | _ => True end) hs ->
  touched (foldl (run_helper initialValues) st hs) = touched st.
Proof.
  revert st. induction hs as [|h hs IH]; intros st H; [reflexivity|].
  apply Forall_cons_1 in H as [Hh Hhs]. cbn [foldl]. rewrite IH by done.
  now destruct h.
Qed.

Lemma validateForm_touched st pending :
  touched (validateForm host validationSchema options st pending).1
  = touched pending.
Proof.
  unfold validateForm.
  now destruct (validateForm_loop host validationSchema options st) as [[m b]|].
Qed.

Lemma validateForm_fold_throw st keys :
  foldl (validateForm_step host validationSchema options st) Throw keys = Throw.
Proof. induction keys as [|k keys IH]; [reflexivity|exact IH]. Qed.

Lemma validateForm_fold st keys : forall done m b,
  loop_inv host validationSchema options st done m b ->
  match foldl (validateForm_step host validationSchema options st) (Ok (m, b)) keys with
  | Ok (m', b') =>
      (forall f, f ∈ keys -> exists e, field_error host validationSchema options st f = Ok e)
      /\ loop_inv host validationSchema options st (done ++ keys) m' b'
  | Throw => exists f, f ∈ keys /\ field_error host validationSchema options st f = Throw
  end.
Proof.
  induction keys as [|k keys IH]; intros done m b Hinv.
  - cbn [foldl]. split; [now intros f ?%elem_of_nil|now rewrite app_nil_r].
  - cbn [foldl]. unfold validateForm_step at 2. cbn [mbind Res_bind].
    fold (field_error host validationSchema options st k).
    destruct (field_error host validationSchema options st k) as [e|] eqn:He; cbn [mbind Res_bind].
    2:{ rewrite validateForm_fold_throw. exists k. split; [now left|done]. }
    destruct Hinv as [Hm Hb].
    assert (Hinv' : loop_inv host validationSchema options st (done ++ [k])
                      (if truthy e then <[k := e]> m else m)
                      (if truthy e then true else b)).
    { destruct (truthy e) eqn:Et; split.
      - intros f e'. destruct (decide (f = k)) as [->|Hne].
        + rewrite lookup_insert_eq, elem_of_app, list_elem_of_singleton.
          split; [intros [= <-]; auto|]. intros (_ & H & _). congruence.
        + rewrite lookup_insert_ne by done.
          rewrite Hm, elem_of_app, list_elem_of_singleton. tauto.
      - split; [|done]. intros _. exists k, e.
        rewrite elem_of_app, list_elem_of_singleton. auto.
      - intros f e'. rewrite Hm, elem_of_app, list_elem_of_singleton.
        split; [tauto|]. intros ([H| ->] & H1 & H2); [tauto|]. congruence.
      - rewrite Hb. split.
        + intros (f & e' & H & H1 & H2). exists f, e'.
          rewrite elem_of_app. tauto.
        + intros (f & e' & H & H1 & H2). exists f, e'.
          apply elem_of_app in H as [H| ->%list_elem_of_singleton]; [tauto|].
          congruence. }
    specialize (IH _ _ _ Hinv').
    replace (if truthy e then (<[k := e]> m, true) else (m, b))
      with (if truthy e then <[k := e]> m else m, if truthy e then true else b)
      by now destruct (truthy e).
    destruct (foldl _ _ keys) as [[m' b']|].
    + destruct IH as [Hret Hi]. split.
      * intros f [->|Hf]%elem_of_cons; eauto.
      * now rewrite <- app_assoc in Hi.
    + destruct IH as (f & Hf & Ht). exists f. split; [now right|done].
Qed.

(** What the loop of [validateForm] computes: when every field's validation
    returns, the map of exactly the failing fields and whether there is one;
    otherwise the exception of a field whose validation throws. *)
Lemma validateForm_loop_spec st :
  match validateForm_loop host validationSchema options st with
  | Ok (m, b) =>
      validation_returns host validationSchema options st
      /\ (forall f e, m !! f = Some e <-> field_fails host validationSchema options st f e)
      /\ (b = true <-> exists f e, field_fails host validationSchema options st f e)
  | Throw => exists f, is_Some (validationSchema !! f) /\ field_error host validationSchema options st f = Throw
  end.
Proof.
  pose proof (validateForm_fold st (object_keys validationSchema) [] ∅ false) as H.
  unfold validateForm_loop.
  destruct (foldl _ _ (object_keys validationSchema)) as [[m b]|].
  - destruct H as (Hret & Hm & Hb).
    { split.
      - intros f e. rewrite lookup_empty. split; [done|].
        now intros [?%elem_of_nil _].
      - split; [done|]. now intros (f & e & ?%elem_of_nil & _). }
    cbn [app] in Hm, Hb. unfold field_fails. split; [|split].
    + intros f Hf. now apply Hret, elem_of_object_keys.
    + intros f e. now rewrite Hm, elem_of_object_keys.
    + rewrite Hb. split; intros (f & e & H); exists f, e;
        now rewrite elem_of_object_keys in *.
  - destruct H as (f & Hf & Ht).
    { split.
      - intros f e. rewrite lookup_empty. split; [done|].
        now intros [?%elem_of_nil _].
      - split; [done|]. now intros (f & e & ?%elem_of_nil & _). }
    exists f. split; [now apply elem_of_object_keys|done].
Qed.

Lemma validation_returns_not_throw st :
  validation_returns host validationSchema options st ->
  validateForm_loop host validationSchema options st <> Throw.
Proof.
  intros Hret Ht. pose proof (validateForm_loop_spec st) as H.
  rewrite Ht in H. destruct H as (f & Hf & Hthrow).
  destruct (Hret f Hf) as [e He]. congruence.
Qed.
End Submit.

Lemma handleSubmit_touched_lookup host initialValues validationSchema options
    onSubmit st k :
  never_resets onSubmit ->
  touched (handleSubmit host initialValues validationSchema options onSubmit st).1
    !! k = (fun _ => VBool true) <$> (values st !! k).
Proof.
  intros Hnr. rewrite <- touched_of_values_lookup. f_equal.
  unfold handleSubmit.
  set (st1 := set_touched _ st).
  assert (H1 : touched st1 = foldl (fun acc key => <[key := VBool true]> acc) ∅
                               (object_keys (values st))) by reflexivity.
  rewrite <- H1. clear H1.
  destruct (validateOnSubmit options).
  - pose proof (validateForm_touched host validationSchema options st st1) as Ht.
    destruct (validateForm host validationSchema options st st1) as [st2 [b|]];
      cbn [fst] in *; [|done].
    destruct onSubmit as [cb|]; [|done]. destruct b; [|done].
    cbn [fst touched set_isSubmitting].
    now rewrite (run_helpers_touched initialValues _ _ (Hnr cb (values st) eq_refl)).
  - destruct onSubmit as [cb|]; [|done].
    cbn [fst touched set_isSubmitting].
    now rewrite (run_helpers_touched initialValues _ _ (Hnr cb (values st) eq_refl)).
Qed.




(** C9: [handleSubmit] replaces the touched map with one that marks exactly
    the current keys of the form values as [true]: a field that was touched
    but is not a key of the form values loses its flag, and a field that
    occurs only in the validation schema is not marked. *)
Theorem submit_touches_exactly_value_keys (host : Host)
    (initialValues validationSchema : gmap string JsVal) (options : Options)
    (onSubmit : option Callback) (st : State) :
  never_resets onSubmit ->
  let st' := (handleSubmit host initialValues validationSchema options onSubmit st).1 in
  touched st' = (fun _ => VBool true) <$> values st
  /\ (forall k, is_Some (values st !! k) -> touched st' !! k = Some (VBool true))
  /\ (forall k, is_Some (touched st !! k) -> values st !! k = None ->
        touched st' !! k = None)
  /\ (forall k, is_Some (validationSchema !! k) -> values st !! k = None ->
        touched st' !! k = None).
Proof.
  intros Hnr st'.
  assert (H : forall k, touched st' !! k = (fun _ => VBool true) <$> (values st !! k))
    by (intros k; now apply handleSubmit_touched_lookup).
  split; [|split; [|split]].
  - apply map_eq. intros k. now rewrite H, lookup_fmap.
  - intros k [v Hv]. now rewrite H, Hv.
  - intros k _ Hv. now rewrite H, Hv.
  - intros k _ Hv. now rewrite H, Hv.
Qed.

Lemma submit_touches_exactly_value_keys_witness :
  let st := {| values := {[ "name" := VStr "bob" ]};
               touched := {[ "old" := VBool true ]};
               errors := ∅; isSubmitting := false |} in
  let st' := (handleSubmit Scenario.host0 {[ "name" := VStr "bob" ]}
                {[ "name" := VStr "required"; "extra" := VStr "required" ]}
                default_options None st).1 in
  touched st' !! "name" = Some (VBool true)
  /\ touched st' !! "old" = None
  /\ touched st' !! "extra" = None.
Proof.
  intros st st'.
  assert (Hnr : never_resets None) by (intros cb vals [=]).
  pose proof (submit_touches_exactly_value_keys Scenario.host0
                {[ "name" := VStr "bob" ]}
                {[ "name" := VStr "required"; "extra" := VStr "required" ]}
                default_options None st Hnr) as (_ & H1 & H2 & H3).
  split; [|split].
  - apply H1. now eexists.
  - apply H2; [now eexists | reflexivity].
  - apply H3; [now eexists | reflexivity].
Defined.

(** A callback that calls the [resetForm] it is handed leaves no field
    touched. *)
Lemma submit_then_reset_clears_touched host initialValues validationSchema
    options vals a st :
  validateOnSubmit options = false ->
  touched (handleSubmit host initialValues validationSchema options
             (Some (fun _ => {| helpers := [ResetForm a]; fails := false |}))
             (set_values (fun _ => vals) st)).1 = ∅.
Proof. intros H. unfold handleSubmit. now rewrite H. Qed.

(** * Further properties of the validators and the controller *)

(** ** The e-mail pattern *)

Lemma join_dots_cons_char c g gs :
  join_dots (String c g) gs = String c (join_dots g gs).
Proof. now destruct gs. Qed.

Lemma match_domain_spec s : forall seg,
  match_domain seg s = true <->
  exists g gs, s = join_dots g gs /\ all_chars domain_char g = true
               /\ (seg = true \/ g <> "") /\ Forall domain_segment gs.
Proof.
  induction s as [|c s IH]; intros seg; cbn [match_domain].
  - split.
    + intros ->. exists "", []. repeat split; auto.
    + intros (g & gs & H & _ & Hg & _). destruct gs as [|g' gs]; cbn in H.
      * subst g. now destruct Hg.
      * destruct g; discriminate.
  - destruct (domain_char c) eqn:Hc.
    + rewrite IH. split.
      * intros (g & gs & -> & Hg & _ & Hgs). exists (String c g), gs.
        rewrite join_dots_cons_char. cbn [all_chars]. rewrite Hc, Hg.
        repeat split; auto.
      * intros (g & gs & H & Hg & Hne & Hgs). destruct g as [|c' g].
        -- destruct gs as [|g' gs]; cbn in H; [discriminate|].
           injection H as -> _. discriminate.
        -- rewrite join_dots_cons_char in H. injection H as <- ->.
           cbn [all_chars] in Hg. apply andb_true_iff in Hg as [_ Hg].
           exists g, gs. repeat split; auto.
    + destruct (Ascii.eqb c ".") eqn:Hd.
      * apply Ascii.eqb_eq in Hd. subst c. rewrite andb_true_iff, IH. split.
        -- intros (-> & g & gs & -> & Hg & [[=]|Hne] & Hgs).
           exists "", (g :: gs). repeat split; auto. now constructor.
        -- intros (g0 & gs0 & H & Hg0 & Hne & Hgs). destruct g0 as [|c' g0].
           ++ destruct Hne as [->|]; [|done].
              destruct gs0 as [|g gs]; cbn in H; [discriminate|].
              injection H as ->. apply Forall_cons_1 in Hgs as [[Hn Hg] Hgs].
              split; [done|]. exists g, gs. repeat split; auto.
           ++ rewrite join_dots_cons_char in H. injection H as <- _.
              cbn [all_chars] in Hg0. now rewrite Hc in Hg0.
      * split; [discriminate|].
        intros (g0 & gs0 & H & Hg0 & Hne & Hgs). destruct g0 as [|c' g0].
        -- destruct gs0 as [|g gs]; cbn in H; [discriminate|].
           injection H as -> _. discriminate.
        -- rewrite join_dots_cons_char in H. injection H as <- _.
           cbn [all_chars] in Hg0. now rewrite Hc in Hg0.
Qed.

Lemma match_local_spec s : forall seen,
  match_local seen s = true <->
  exists l d, s = l +:+ "@" +:+ d /\ all_chars local_char l = true
              /\ (seen = true \/ l <> "") /\ match_domain false d = true.
Proof.
  induction s as [|c s IH]; intros seen; cbn [match_local].
  - split; [discriminate|]. intros (l & d & H & _). destruct l; discriminate.
  - destruct (local_char c) eqn:Hc.
    + rewrite IH. split.
      * intros (l & d & -> & Hl & _ & Hd). exists (String c l), d.
        cbn [all_chars]. rewrite Hc, Hl. repeat split; auto.
      * intros (l & d & H & Hl & Hne & Hd). destruct l as [|c' l]; cbn in H.
        -- injection H as -> _. discriminate.
        -- injection H as <- ->. cbn [all_chars] in Hl.
           apply andb_true_iff in Hl as [_ Hl]. exists l, d. repeat split; auto.
    + destruct (Ascii.eqb c "@") eqn:Ha.
      * apply Ascii.eqb_eq in Ha. subst c. rewrite andb_true_iff. split.
        -- intros (-> & Hd). exists "", s. repeat split; auto.
        -- intros (l & d & H & Hl & Hne & Hd). destruct l as [|c' l]; cbn in H.
           ++ injection H as ->. destruct Hne as [->|]; done.
           ++ injection H as <- _. cbn [all_chars] in Hl. now rewrite Hc in Hl.
      * split; [discriminate|].
        intros (l & d & H & Hl & Hne & Hd). destruct l as [|c' l]; cbn in H.
        -- injection H as -> _. discriminate.
        -- injection H as <- _. cbn [all_chars] in Hl. now rewrite Hc in Hl.
Qed.

(** X3 *)
Theorem emailRegex_test_shape (s : string) :
  emailRegex_test s = true <-> email_shape s.
Proof.
  unfold emailRegex_test, email_shape. rewrite match_local_spec. split.
  - intros (l & d & -> & Hl & [[=]|Hne] & Hd).
    apply match_domain_spec in Hd as (g & gs & -> & Hg & [[=]|Hgn] & Hgs).
    exists l, g, gs. repeat split; auto. constructor; [now split|done].
  - intros (l & g & gs & -> & Hne & Hl & Hgs).
    apply Forall_cons_1 in Hgs as [[Hgn Hg] Hgs].
    exists l, (join_dots g gs). repeat split; auto.
    apply match_domain_spec. exists g, gs. repeat split; auto.
Qed.

Lemma call_email_string host s rest :
  call host (VBuiltIn email) (VStr s :: rest)
  = Ok (if String.eqb s "" || emailRegex_test s then VStr ""
        else VStr "Please enter a valid email address").
Proof. now destruct s. Qed.

(** X3: on a string, the [email] validator returns the empty string exactly
    when the string is empty or has the shape [local@seg.seg...seg] with a
    non-empty local part and one or more non-empty domain segments (a single
    segment, without any dot, is enough); every other string gets the fixed
    message. *)
Theorem email_accepts_exactly_shape (host : Host) (s : string) (rest : list JsVal) :
  let result := call host (VBuiltIn email) (VStr s :: rest) in
  (result = Ok (VStr "") <-> s = "" \/ email_shape s)
  /\ (result = Ok (VStr "")
      \/ result = Ok (VStr "Please enter a valid email address")).
Proof.
  intros result. subst result. rewrite call_email_string.
  rewrite <- emailRegex_test_shape, <- String.eqb_eq, <- orb_true_iff.
  destruct (String.eqb s "" || emailRegex_test s); split; auto.
  - split; auto.
  - split; discriminate.
Qed.

(** ** required *)

(** X1: [required] returns its message exactly for [null], [undefined], the
    empty string and the empty array, and the empty string for every other
    value (so [0] and [false] pass); it never throws and ignores further
    arguments. *)
Theorem required_rejects_exactly_empty (host : Host) (v : JsVal) (rest : list JsVal) :
  let empty := v = VNull \/ v = VUndefined \/ v = VStr "" \/ v = VArr [] in
  (empty /\ call host (VBuiltIn required) (v :: rest) = Ok required_msg)
  \/ (~ empty /\ call host (VBuiltIn required) (v :: rest) = Ok (VStr "")).
Proof.
  cbn [call builtin arg nth].
  destruct v as [| | | |s|items| | | | | | |]; try (left; split; [tauto|reflexivity]).
  all: try (right; split; [|reflexivity]; intros [H|[H|[H|H]]]; discriminate).
  - destruct s as [|c s]; [left; split; [tauto|reflexivity]|].
    right. split; [|reflexivity]. intros [H|[H|[H|H]]]; discriminate.
  - destruct items as [|i items]; [left; split; [tauto|reflexivity]|].
    right. split; [|reflexivity]. intros [H|[H|[H|H]]]; discriminate.
Qed.

(** ** The guard on empty values *)

(** X2: every built-in validator other than [required] and [compose]
    returns the empty string on a falsy value ([undefined], [null], [false],
    [0], [NaN], ['']), whatever its parameters, without consulting the
    platform and without throwing. *)
Theorem builtin_passes_falsy_value (host : Host) (b : BuiltIn) (args : list JsVal) :
  b <> required -> b <> compose ->
  truthy (arg 0 args) = false ->
  call host (VBuiltIn b) args = Ok (VStr "").
Proof.
  intros Hr Hc Hf. cbn [call].
  destruct b; try done; cbn [builtin]; now rewrite Hf.
Qed.

Lemma builtin_passes_falsy_value_witness :
  call Scenario.host0 (VBuiltIn min) [VNum 0%float; VNum 18%float] = Ok (VStr "").
Proof.
  apply (builtin_passes_falsy_value Scenario.host0 min
           [VNum 0%float; VNum 18%float]); [discriminate|discriminate|reflexivity].
Defined.

(** ** compose *)

Lemma first_error_app xs ys :
  first_error (xs ++ ys) =
    match first_error xs with
    | Ok e => if truthy e then Ok e else first_error ys
    | Throw => Throw
    end.
Proof.
  induction xs as [|[e|] xs IH]; cbn; [reflexivity| |reflexivity].
  destruct (truthy e) eqn:E; [now rewrite E|exact IH].
Qed.

Lemma call_composed host vs args :
  call host (VComposed vs) args
  = first_error ((fun v => call host v [arg 0 args; arg 1 args]) <$> vs).
Proof.
  cbn [call]. induction vs as [|v vs IH]; [reflexivity|].
  cbn [fmap list_fmap first_error].
  destruct (call host v [arg 0 args; arg 1 args]) as [e|]; [|reflexivity].
  destruct (truthy e); [reflexivity|exact IH].
Qed.

(** X4: the validator that [compose(v1, ..., vn)] returns calls the [vi] in
    order on [(value, values)] and returns the first truthy result; it
    returns the empty string exactly when every [vi] returns a falsy value,
    and validators after the first error are not consulted. *)
Theorem compose_first_error (host : Host) (vs args : list JsVal) :
  let results := (fun v => call host v [arg 0 args; arg 1 args]) <$> vs in
  call host (VBuiltIn compose) vs = Ok (VComposed vs)
  /\ call host (VComposed vs) args = first_error results
  /\ (call host (VComposed vs) args = Ok (VStr "") <-> Forall passes results)
  /\ (forall e, truthy e = true ->
        call host (VComposed vs) args = Ok e
        <-> exists pre post, results = pre ++ Ok e :: post /\ Forall passes pre).
Proof.
  intros results. split; [reflexivity|]. rewrite call_composed. fold results.
  split; [reflexivity|]. split.
  - apply first_error_empty_iff.
  - intros e He. now apply first_error_truthy_iff.
Qed.

(** X5: composing is associative: a composed validator used as a member of
    another behaves as if its members were listed in its place. *)
Theorem compose_flattens (host : Host) (pre inner post args : list JsVal) :
  call host (VComposed (pre ++ VComposed inner :: post)) args
  = call host (VComposed (pre ++ inner ++ post)) args.
Proof.
  rewrite !call_composed, !fmap_app, fmap_cons, !first_error_app.
  destruct (first_error _) as [e|]; [|reflexivity].
  destruct (truthy e); [reflexivity|].
  cbn [first_error]. rewrite call_composed. cbn [arg nth].
  destruct (first_error _) as [e'|] eqn:E; [|reflexivity].
  destruct (truthy e') eqn:Et; [reflexivity|].
  reflexivity.
Qed.

(** ** createValidator, continued *)

(** X6: a validator built by [createValidator] passes exactly the first two
    of its arguments to the predicate, throws only when the predicate
    throws, and otherwise returns the empty string or a truthy value, never
    another falsy one (an empty or missing message becomes
    ['Validation failed']). *)
Theorem createValidator_result_contract (host : Host)
    (validatorFn defaultMessage : JsVal) (args : list JsVal) :
  let result := call host (createValidator validatorFn defaultMessage) args in
  (result = Throw <-> call host validatorFn [arg 0 args; arg 1 args] = Throw)
  /\ (forall e, result = Ok e -> e = VStr "" \/ truthy e = true)
  /\ (truthy defaultMessage = false ->
      forall e, result = Ok e -> e = VStr "" \/ e = VStr "Validation failed").
Proof.
  cbn [createValidator call].
  destruct (call host validatorFn [arg 0 args; arg 1 args]) as [r|].
  - split; [split; discriminate|]. split.
    + intros e [= <-]. destruct (truthy r); [now left|right].
      unfold js_or. now destruct (truthy defaultMessage) eqn:E.
    + intros Hm e [= <-]. destruct (truthy r); [now left|right].
      now rewrite truthy_js_or.
  - split; [done|]. split; [discriminate|]. intros _ e. discriminate.
Qed.

(** ** The resolver's result *)

Lemma failed_message_truthy message name :
  truthy (js_or message (VStr ("Validation failed for " +:+ name))) = true.
Proof. unfold js_or. now destruct (truthy message) eqn:E. Qed.

Lemma checked_call_Some (c : list JsVal -> Res JsVal) params (failed e : JsVal) :
  (ps ← spread params; ok ← c ps;
   Ok (if negb (truthy ok) then Some failed else None)) = Ok (Some e) ->
  e = failed.
Proof.
  destruct (spread params) as [ps|]; cbn [mbind Res_bind]; [|discriminate].
  destruct (c ps) as [ok|]; cbn [mbind Res_bind]; [|discriminate].
  destruct (truthy ok); cbn [negb]; congruence.
Qed.

Lemma first_some_elim (P : JsVal -> Prop) (c : Res (option JsVal))
    (k : Res (option JsVal)) e :
  (forall x, c = Ok (Some x) -> P x) ->
  (forall x, k = Ok (Some x) -> P x) ->
  (r ← c; match r with Some x => Ok (Some x) | None => k end) = Ok (Some e) ->
  P e.
Proof.
  intros Hc Hk. destruct c as [[x|]|]; cbn [mbind Res_bind]; [| |discriminate].
  - intros [= <-]. now apply Hc.
  - apply Hk.
Qed.

Lemma rule_object_Some host options name value rule e :
  rule_object host options name value rule = Ok (Some e) -> truthy e = true.
Proof.
  unfold rule_object.
  destruct (destructure_rule rule) as [[[validator message] params]|];
    cbn [mbind Res_bind]; [|discriminate].
  pose proof (failed_message_truthy message name) as Hf.
  apply (first_some_elim (fun x => truthy x = true)).
  - intros x. destruct (_ && _); [|discriminate].
    intros H%checked_call_Some. now subst x.
  - intros x. destruct (is_function validator); [|discriminate].
    intros H%checked_call_Some. now subst x.
Qed.

Lemma error_call_Some (c : Res JsVal) (r : JsVal) :
  (error ← c; Ok (if truthy error then Some error else None)) = Ok (Some r) ->
  truthy r = true.
Proof.
  destruct c as [x|]; cbn [mbind Res_bind]; [|discriminate].
  destruct (truthy x) eqn:E; [|discriminate]. now intros [= <-].
Qed.

Lemma rule_step_Some host options vals name value rule e :
  rule_step host options vals name value rule = Ok (Some e) -> truthy e = true.
Proof.
  unfold rule_step. apply (first_some_elim (fun x => truthy x = true)).
  - intros x. destruct (_ && _); [apply error_call_Some|discriminate].
  - intros x. apply (first_some_elim (fun x => truthy x = true)).
    + intros y. destruct (is_object rule); [apply rule_object_Some|discriminate].
    + intros y. destruct (is_function rule); [apply error_call_Some|discriminate].
Qed.

Lemma rules_loop_result host options vals name value rules e :
  rules_loop host options vals name value rules = Ok e ->
  e = VStr "" \/ truthy e = true.
Proof.
  induction rules as [|rule rules IH]; cbn [rules_loop].
  - intros [= <-]. now left.
  - destruct (rule_step host options vals name value rule) as [[e'|]|] eqn:E;
      [|exact IH|discriminate].
    intros [= <-]. right. now apply rule_step_Some in E.
Qed.

Lemma js_or_empty_result v : js_or v (VStr "") = VStr "" \/ truthy (js_or v (VStr "")) = true.
Proof. unfold js_or. destruct (truthy v) eqn:E; auto. Qed.

(** X7: whatever the shape of a field's declaration, when [validateField]
    returns, the result is the empty string or a truthy value: a validator's
    falsy result ([undefined], [null], [false], [0]) is never stored as an
    error. *)
Theorem validateField_result_empty_or_truthy (host : Host)
    (validationSchema : gmap string JsVal) (options : Options)
    (vals : gmap string JsVal) (name : string) (value e : JsVal) :
  validateField host validationSchema options vals name value = Ok e ->
  e = VStr "" \/ truthy e = true.
Proof.
  unfold validateField.
  destruct (truthy (get validationSchema name)); cbn [negb];
    [|intros [= <-]; now left].
  assert (Hor : forall c : Res JsVal,
            (error ← c; Ok (js_or error (VStr ""))) = Ok e ->
            e = VStr "" \/ truthy e = true).
  { intros [x|]; cbn [mbind Res_bind]; [|discriminate].
    intros [= <-]. apply js_or_empty_result. }
  assert (Hobj : forall rule,
            (r ← rule_object host options name value rule;
             Ok (default (VStr "") r)) = Ok e ->
            e = VStr "" \/ truthy e = true).
  { intros rule.
    destruct (rule_object host options name value rule) as [[e'|]|] eqn:E;
      cbn [mbind Res_bind default]; [| |discriminate].
    - intros [= <-]. right. now apply rule_object_Some in E.
    - intros [= <-]. now left. }
  destruct (get validationSchema name) as [| | | |s|rules| | | | | | |] eqn:Hg.
  all: try (apply rules_loop_result).
  all: cbn [is_string is_function is_object typeof andb].
  all: try (intros [= <-]; now left).
  all: try apply Hor.
  all: try apply Hobj.
  destruct (truthy (validators_at options (VStr s)));
    [apply Hor|intros [= <-]; now left].
Qed.

Lemma validateField_result_empty_or_truthy_witness :
  VStr "This field is required" = VStr ""
  \/ truthy (VStr "This field is required") = true.
Proof.
  apply (validateField_result_empty_or_truthy Scenario.host0 Scenario.schemaC
           default_options ∅ "name" (VStr "")).
  reflexivity.
Defined.

(** ** Rule lists of any shape *)

Lemma rules_loop_pass_prefix host options vals name value pre rest :
  Forall (fun r => rule_step host options vals name value r = Ok None) pre ->
  rules_loop host options vals name value (pre ++ rest)
  = rules_loop host options vals name value rest.
Proof.
  induction 1 as [|r pre Hr _ IH]; [reflexivity|].
  cbn [app rules_loop]. now rewrite Hr.
Qed.

Lemma validateField_list_after_prefix host validationSchema options vals name
    value pre rule post :
  validationSchema !! name = Some (VArr (pre ++ rule :: post)) ->
  Forall (fun r => rule_step host options vals name value r = Ok None) pre ->
  validateField host validationSchema options vals name value
  = match rule_step host options vals name value rule with
    | Ok (Some e) => Ok e
    | Ok None => rules_loop host options vals name value post
    | Throw => Throw
    end.
Proof.
  intros Hs Hpre. unfold validateField. rewrite (get_Some _ _ _ Hs).
  cbn [truthy negb]. now rewrite rules_loop_pass_prefix.
Qed.

(** X8: in a rule list with entries of any shape, the field's error is the
    error of the first rule that reports one, and an exception raised by the
    first rule that does not pass propagates; in both cases the rules after
    it are not evaluated, so the result does not depend on them. *)
Theorem rule_list_short_circuit (host : Host)
    (validationSchema : gmap string JsVal) (options : Options)
    (vals : gmap string JsVal) (name : string) (value rule : JsVal)
    (pre post : list JsVal) :
  validationSchema !! name = Some (VArr (pre ++ rule :: post)) ->
  Forall (fun r => rule_step host options vals name value r = Ok None) pre ->
  (forall e, rule_step host options vals name value rule = Ok (Some e) ->
     validateField host validationSchema options vals name value = Ok e)
  /\ (rule_step host options vals name value rule = Throw ->
      validateField host validationSchema options vals name value = Throw).
Proof.
  intros Hs Hpre.
  rewrite (validateField_list_after_prefix _ _ _ _ _ _ _ _ _ Hs Hpre). split.
  - now intros e ->.
  - now intros ->.
Qed.

Lemma rule_list_short_circuit_witness :
  let first := VObj {[ "validator" := VUser 0; "message" := VStr "no" ]} in
  validateField Scenario.host0 {[ "nick" := VArr [VStr "email"; first; VStr "matches"] ]}
    default_options ∅ "nick" (VStr "a@b") = Ok (VStr "no")
  /\ validateField Scenario.host0 {[ "nick" := VArr [VStr "matches"] ]}
       default_options ∅ "nick" (VStr "a@b") = Throw.
Proof.
  intros first. split.
  - assert (Hs : ({[ "nick" := VArr [VStr "email"; first; VStr "matches"] ]}
                    : gmap string JsVal) !! "nick"
                 = Some (VArr ([VStr "email"] ++ first :: [VStr "matches"])))
      by reflexivity.
    assert (Hpre : Forall (fun r => rule_step Scenario.host0 default_options ∅
                                      "nick" (VStr "a@b") r = Ok None)
                     [VStr "email"])
      by (constructor; [reflexivity|constructor]).
    apply (proj1 (rule_list_short_circuit Scenario.host0 _ default_options ∅
                    "nick" (VStr "a@b") first _ _ Hs Hpre)).
    reflexivity.
  - assert (Hs : ({[ "nick" := VArr [VStr "matches"] ]} : gmap string JsVal)
                   !! "nick" = Some (VArr ([] ++ VStr "matches" :: [])))
      by reflexivity.
    apply (proj2 (rule_list_short_circuit Scenario.host0 _ default_options ∅
                    "nick" (VStr "a@b") (VStr "matches") _ _ Hs (Forall_nil_2 _))).
    reflexivity.
Defined.

(** ** Object rules whose validator is a function *)

(** X9: for a field declared by an object rule whose [validator] is a
    function, the function is called on the value followed by the rule's
    [params] (none when [params] is missing); a truthy result gives the
    empty string, a falsy one gives the rule's [message] or, when that is
    missing or falsy, ['Validation failed for ' + name]. *)
Theorem object_rule_function_validator (host : Host)
    (validationSchema : gmap string JsVal) (options : Options)
    (vals : gmap string JsVal) (name : string) (value : JsVal)
    (props : gmap string JsVal) (f r : JsVal) (ps : list JsVal) :
  validationSchema !! name = Some (VObj props) ->
  props !! "validator" = Some f ->
  is_function f = true ->
  spread (match get props "params" with VUndefined => VArr [] | p => p end) = Ok ps ->
  call host f (value :: ps) = Ok r ->
  validateField host validationSchema options vals name value
  = Ok (if truthy r then VStr ""
        else js_or (get props "message") (VStr ("Validation failed for " +:+ name))).
Proof.
  intros Hs Hv Hf Hp Hc. unfold validateField. rewrite (get_Some _ _ _ Hs).
  cbn [truthy negb is_string is_function is_object typeof andb].
  unfold rule_object. cbn [destructure_rule mbind Res_bind].
  rewrite (get_Some _ _ _ Hv), Hf.
  assert (Hns : is_string f = false) by (now destruct f).
  rewrite Hns. cbn [andb mbind Res_bind]. rewrite Hp. cbn [mbind Res_bind].
  rewrite Hc. cbn [mbind Res_bind]. now destruct (truthy r).
Qed.

Lemma object_rule_function_validator_witness :
  validateField Scenario.host0 {[ "age" := VObj {[ "validator" := VUser 0 ]} ]}
    default_options ∅ "age" (VNum 7%float)
  = Ok (VStr "Validation failed for age").
Proof.
  refine (eq_trans
            (object_rule_function_validator Scenario.host0
               {[ "age" := VObj {[ "validator" := VUser 0 ]} ]} default_options ∅
               "age" (VNum 7%float) {[ "validator" := VUser 0 ]} (VUser 0)
               (VBool false) [] _ _ _ _ _) _); reflexivity.
Defined.

(** ** The registry *)

Lemma validators_custom options n f :
  customValidators options !! n = Some f -> validators options !! n = Some f.
Proof. intros H. unfold validators. now apply lookup_union_Some_l. Qed.

Lemma validators_builtin options n :
  customValidators options !! n = None ->
  validators options !! n = builtInValidators !! n.
Proof. intros H. unfold validators. now apply lookup_union_r. Qed.

Lemma call_method_call host this f args :
  (forall p, f <> VProto p) -> call_method host this f args = call host f args.
Proof. intros H. destruct f; try reflexivity. now destruct (H p). Qed.

(** X12: a custom validator shadows the built-in of the same name: a field
    declared by the name [n] is checked by [customValidators[n]], called as
    a method of the registry, whenever that entry is truthy, also when [n]
    names a built-in, and by the built-in only when [customValidators] has
    no entry [n]. *)
Theorem custom_validator_shadows_builtin (host : Host)
    (validationSchema : gmap string JsVal) (options : Options)
    (vals : gmap string JsVal) (name : string) (value : JsVal) (n : string) :
  validationSchema !! name = Some (VStr n) -> n <> "" ->
  (forall f, customValidators options !! n = Some f -> truthy f = true ->
     validateField host validationSchema options vals name value
     = (error ← call_method host (VObj (validators options)) f [value];
        Ok (js_or error (VStr ""))))
  /\ (forall b, customValidators options !! n = None ->
        builtInValidators !! n = Some (VBuiltIn b) ->
        validateField host validationSchema options vals name value
        = (error ← builtin host b [value]; Ok (js_or error (VStr "")))).
Proof.
  intros Hs Hn.
  assert (Ht : truthy (VStr n) = true)
    by (cbn; now apply negb_true_iff, String.eqb_neq).
  split.
  - intros f Hc Hf. unfold validateField. rewrite (get_Some _ _ _ Hs), Ht.
    cbn [negb is_string typeof validators_at].
    now rewrite (get_Some _ _ _ (validators_custom _ _ _ Hc)), Hf.
  - intros b Hc Hb. unfold validateField. rewrite (get_Some _ _ _ Hs), Ht.
    cbn [negb is_string typeof validators_at].
    rewrite (get_Some _ n (VBuiltIn b))
      by now rewrite (validators_builtin _ _ Hc).
    reflexivity.
Qed.

Lemma custom_validator_shadows_builtin_witness :
  validateField Scenario.host0 Scenario.schemaC
    {| validateOnChange := true; validateOnBlur := true; validateOnSubmit := true;
       customValidators := {[ "required" := VUser 1 ]} |}
    ∅ "name" (VStr "bob")
  = Ok (VStr "Must be a multiple of 3").
Proof.
  refine (eq_trans
            (proj1 (custom_validator_shadows_builtin Scenario.host0
                      Scenario.schemaC _ ∅ "name" (VStr "bob") "required" _ _)
               (VUser 1) _ _) _); try reflexivity.
  discriminate.
Defined.

(** ** Registry entries that do not work as bare rules *)

Lemma matches_without_values_throws host args :
  truthy (arg 0 args) = true ->
  arg 2 args = VUndefined \/ arg 2 args = VNull ->
  builtin host matches args = Throw.
Proof. intros Ht Hv. cbn [builtin]. rewrite Ht. now destruct Hv as [-> | ->]. Qed.

(** X10: the resolver never hands the form's values to a named validator,
    so the built-in [matches], which reads [values[fieldToMatch]] from its
    third argument, throws on every non-empty value when it is used as a bare
    string rule or as the [validator] of an object rule with the one
    parameter [fieldToMatch]. *)
Theorem matches_rule_throws (host : Host)
    (validationSchema : gmap string JsVal) (options : Options)
    (vals : gmap string JsVal) (name : string) (value : JsVal) :
  customValidators options !! "matches" = None ->
  truthy value = true ->
  (validationSchema !! name = Some (VStr "matches") ->
   validateField host validationSchema options vals name value = Throw)
  /\ (forall props fieldToMatch,
        validationSchema !! name = Some (VObj props) ->
        props !! "validator" = Some (VStr "matches") ->
        props !! "params" = Some (VArr [fieldToMatch]) ->
        validateField host validationSchema options vals name value = Throw).
Proof.
  intros Hc Ht.
  assert (Hm : get (validators options) "matches" = VBuiltIn matches).
  { apply get_Some. now rewrite (validators_builtin _ _ Hc). }
  split.
  - intros Hs. unfold validateField. rewrite (get_Some _ _ _ Hs).
    cbn [truthy String.eqb negb is_string typeof validators_at andb].
    rewrite Hm. cbn [truthy call_method call].
    now rewrite matches_without_values_throws by (cbn; auto).
  - intros props fieldToMatch Hs Hv Hp. unfold validateField.
    rewrite (get_Some _ _ _ Hs).
    cbn [truthy negb is_string is_function is_object typeof andb].
    unfold rule_object. cbn [destructure_rule mbind Res_bind].
    rewrite (get_Some _ _ _ Hv), (get_Some _ _ _ Hp).
    cbn [is_string typeof validators_at andb]. rewrite Hm.
    cbn [truthy spread mbind Res_bind call_method call].
    now rewrite matches_without_values_throws by (cbn; auto).
Qed.

Lemma matches_rule_throws_witness :
  validateField Scenario.host0 {[ "confirm" := VStr "matches" ]} default_options
    {[ "password" := VStr "abc"; "confirm" := VStr "abc" ]} "confirm" (VStr "abc")
  = Throw.
Proof.
  apply (proj1 (matches_rule_throws Scenario.host0 {[ "confirm" := VStr "matches" ]}
                  default_options
                  {[ "password" := VStr "abc"; "confirm" := VStr "abc" ]}
                  "confirm" (VStr "abc") eq_refl eq_refl)).
  reflexivity.
Defined.

(** X11: the registry entry [compose] is a combinator, not a validator:
    used as a bare string rule it is called on the value and returns a
    function, which is truthy, so the field's error is a function value for
    every value of the field. *)
Theorem compose_rule_yields_function (host : Host)
    (validationSchema : gmap string JsVal) (options : Options)
    (vals : gmap string JsVal) (name : string) (value : JsVal) :
  customValidators options !! "compose" = None ->
  validationSchema !! name = Some (VStr "compose") ->
  exists e, validateField host validationSchema options vals name value = Ok e
            /\ typeof e = TFunction /\ truthy e = true.
Proof.
  intros Hc Hs. exists (VComposed [value]). split; [|done].
  unfold validateField. rewrite (get_Some _ _ _ Hs).
  cbn [truthy String.eqb negb is_string typeof validators_at andb].
  rewrite (get_Some _ "compose" (VBuiltIn compose))
    by now rewrite (validators_builtin _ _ Hc).
  reflexivity.
Qed.

Lemma compose_rule_yields_function_witness :
  exists e, validateField Scenario.host0 {[ "nick" := VStr "compose" ]}
              default_options ∅ "nick" (VStr "") = Ok e
            /\ typeof e = TFunction /\ truthy e = true.
Proof.
  apply (compose_rule_yields_function Scenario.host0 {[ "nick" := VStr "compose" ]}
           default_options ∅ "nick" (VStr "")); reflexivity.
Defined.

(** ** blur *)

(** X13: [handleBlur] always marks the field touched, whether or not
    validate-on-blur is enabled and even when validation throws; it never
    changes the form values or the submitting flag, and it changes no entry
    of the error map other than the field's own, which it sets to the
    field's recomputed error exactly when validate-on-blur is enabled. *)
Theorem blur_marks_touched_and_validates (host : Host)
    (validationSchema : gmap string JsVal) (options : Options)
    (name : string) (st : State) :
  let r := handleBlur host validationSchema options name st in
  let result := validateField host validationSchema options (values st) name
                  (get (values st) name) in
  touched r.1 = <[name := VBool true]> (touched st)
  /\ values r.1 = values st
  /\ isSubmitting r.1 = isSubmitting st
  /\ (forall k, k <> name -> errors r.1 !! k = errors st !! k)
  /\ (validateOnBlur options = false -> errors r.1 = errors st /\ r.2 = [])
  /\ (validateOnBlur options = true ->
      forall e, result = Ok e -> errors r.1 = <[name := e]> (errors st) /\ r.2 = [])
  /\ (validateOnBlur options = true ->
      result = Throw -> errors r.1 = errors st /\ r.2 = [Raised]).
Proof.
  intros r result. subst r. unfold handleBlur. fold result.
  destruct (validateOnBlur options); [destruct result as [e|]|];
    cbn [fst snd set_errors set_touched touched values errors isSubmitting].
  all: split; [reflexivity|]; split; [reflexivity|]; split; [reflexivity|].
  all: split; [intros k Hk; try reflexivity; now rewrite lookup_insert_ne|].
  all: split; [try discriminate; done|].
  all: split; try discriminate; try done.
  intros _ e' [= <-]. done.
Qed.

Lemma blur_marks_touched_and_validates_witness :
  let st := init {[ "name" := VStr "" ]} in
  let r := handleBlur Scenario.host0 Scenario.schemaC default_options "name" st in
  touched r.1 !! "name" = Some (VBool true)
  /\ errors r.1 = {[ "name" := VStr "This field is required" ]}.
Proof.
  intros st r.
  pose proof (blur_marks_touched_and_validates Scenario.host0 Scenario.schemaC
                default_options "name" st) as (Ht & _ & _ & _ & _ & He & _).
  split.
  - fold r in Ht. rewrite Ht. apply lookup_insert_eq.
  - apply (He eq_refl (VStr "This field is required") eq_refl).
Defined.

(** ** validateForm *)



(** X15: [validateForm] is idempotent: run a second time on the state the
    first run left, it leaves that state unchanged (its result depends only
    on the form values, which it does not modify). *)
Theorem validateForm_idempotent (host : Host)
    (initialValues validationSchema : gmap string JsVal) (options : Options)
    (st : State) :
  let st1 := (step host initialValues validationSchema options st Validate).1 in
  (step host initialValues validationSchema options st1 Validate).1 = st1
  /\ (step host initialValues validationSchema options st1 Validate).2
     = (step host initialValues validationSchema options st Validate).2.
Proof.
  cbn [step]. unfold validateForm.
  destruct (validateForm_loop host validationSchema options st)
    as [[m hasErrors]|] eqn:E; cbn [fst snd].
  - change (validateForm_loop host validationSchema options
              (set_errors (fun _ => m) st))
      with (validateForm_loop host validationSchema options st).
    rewrite E. now cbn.
  - rewrite E. now cbn.
Qed.

(** ** submit with a valid form *)

Lemma validateForm_loop_valid host validationSchema options st :
  validation_returns host validationSchema options st ->
  (forall f e, ~ field_fails host validationSchema options st f e) ->
  validateForm_loop host validationSchema options st = Ok (∅, false).
Proof.
  intros Hret Hnone.
  pose proof (validateForm_loop_spec host validationSchema options st) as Hspec.
  pose proof (validation_returns_not_throw host validationSchema options st Hret) as Hnt.
  destruct (validateForm_loop host validationSchema options st) as [[m b]|];
    [|done].
  destruct Hspec as (_ & Hm & Hb). f_equal. f_equal.
  - apply map_eq. intros f. rewrite lookup_empty.
    destruct (m !! f) as [e|] eqn:E; [|done]. apply Hm in E. now apply Hnone in E.
  - destruct b; [|done]. destruct (proj1 Hb eq_refl) as (f & e & Hf).
    now apply Hnone in Hf.
Qed.

(** X16: when validate-on-submit is disabled, or when it is enabled and
    every field of the schema passes, [handleSubmit(cb)] invokes [cb] exactly
    once, with the current form values; if [cb] throws or rejects, the
    failure is logged and not raised; in either case the submitting flag is
    false at the end, and a callback that uses neither helper leaves the form
    values as they were and the error map empty (validation enabled) or
    untouched (validation disabled). *)
Theorem submit_valid_invokes_callback_once (host : Host)
    (initialValues validationSchema : gmap string JsVal) (options : Options)
    (cb : Callback) (st : State) :
  validateOnSubmit options = false
  \/ (validation_returns host validationSchema options st
      /\ forall f e, ~ field_fails host validationSchema options st f e) ->
  let r := handleSubmit host initialValues validationSchema options (Some cb) st in
  r.2 = Invoked (values st) :: (if fails (cb (values st)) then [ConsoleError] else [])
  /\ isSubmitting r.1 = false
  /\ (helpers (cb (values st)) = [] ->
      values r.1 = values st
      /\ errors r.1 = if validateOnSubmit options then ∅ else errors st).
Proof.
  intros H r. subst r. unfold handleSubmit, validateForm.
  destruct (validateOnSubmit options) eqn:Hv.
  - destruct H as [[=]|[Hret Hnone]].
    rewrite (validateForm_loop_valid _ _ _ _ Hret Hnone).
    cbn [negb fst snd set_isSubmitting isSubmitting].
    split; [reflexivity|]. split; [reflexivity|].
    intros ->. now cbn.
  - cbn [fst snd set_isSubmitting isSubmitting].
    split; [reflexivity|]. split; [reflexivity|].
    intros ->. now cbn.
Qed.

Lemma submit_valid_invokes_callback_once_witness :
  let cb : Callback := fun _ => {| helpers := []; fails := true |} in
  let st := init {[ "name" := VStr "bob" ]} in
  let r := handleSubmit Scenario.host0 {[ "name" := VStr "bob" ]} Scenario.schemaC
             default_options (Some cb) st in
  r.2 = [Invoked {[ "name" := VStr "bob" ]}; ConsoleError]
  /\ isSubmitting r.1 = false.
Proof.
  intros cb st r.
  assert (Hret : validation_returns Scenario.host0 Scenario.schemaC default_options st).
  { intros f [rule Hf]. unfold Scenario.schemaC in Hf.
    apply lookup_singleton_Some in Hf as [<- _]. eexists. reflexivity. }
  assert (Hnone : forall f e,
            ~ field_fails Scenario.host0 Scenario.schemaC default_options st f e).
  { intros f e ([rule Hf] & He & Ht). unfold Scenario.schemaC in Hf.
    apply lookup_singleton_Some in Hf as [<- _].
    assert (Hv : field_error Scenario.host0 Scenario.schemaC default_options st "name"
                 = Ok (VStr "")) by reflexivity.
    rewrite Hv in He. injection He as <-. discriminate. }
  pose proof (submit_valid_invokes_callback_once Scenario.host0
                {[ "name" := VStr "bob" ]} Scenario.schemaC default_options cb st
                (or_intror (conj Hret Hnone))) as (He & Hs & _).
  split; [exact He|exact Hs].
Defined.

(** ** Invariants of operation sequences *)

Lemma run_helpers_touched_marks initialValues st hs :
  touched_marks st -> touched_marks (foldl (run_helper initialValues) st hs).
Proof.
  revert st. induction hs as [|h hs IH]; intros st H; [exact H|].
  cbn [foldl]. apply IH. destruct h; [exact H|].
  intros k v. cbn. now rewrite lookup_empty.
Qed.

Lemma step_touched_marks host initialValues validationSchema options st op :
  touched_marks st ->
  touched_marks (step host initialValues validationSchema options st op).1.
Proof.
  intros H. destruct op as [name value|name value|name|onSubmit|a|]; cbn [step].
  - unfold handleChange. now repeat case_match.
  - unfold setValue. now repeat case_match.
  - assert (Hm : touched_marks (set_touched (fun prev => <[name := VBool true]> prev) st)).
    { intros k v. cbn [touched set_touched].
      destruct (decide (k = name)) as [->|Hne].
      - rewrite lookup_insert_eq. congruence.
      - rewrite lookup_insert_ne by done. apply H. }
    unfold handleBlur. now repeat case_match.
  - set (st1 := set_touched
                  (fun _ => foldl (fun acc key => <[key := VBool true]> acc) ∅
                              (object_keys (values st))) st).
    assert (H1 : touched_marks st1).
    { intros k v. unfold st1. cbn [touched set_touched].
      rewrite touched_of_values_lookup. destruct (values st !! k); cbn; congruence. }
    assert (H2 : forall x, touched x = touched st1 -> touched_marks x)
      by (intros x Hx k v; rewrite Hx; apply H1).
    unfold handleSubmit. fold st1.
    destruct (validateOnSubmit options).
    + pose proof (validateForm_touched host validationSchema options st st1) as Ht.
      destruct (validateForm host validationSchema options st st1) as [st2 [b|]];
        cbn [fst] in *; [|now apply H2].
      destruct onSubmit as [cb|]; [destruct b|]; cbn [fst]; try now apply H2.
      intros k v. cbn [touched set_isSubmitting].
      apply run_helpers_touched_marks. now apply H2.
    + destruct onSubmit as [cb|]; cbn [fst]; [|now apply H2].
      intros k v. cbn [touched set_isSubmitting].
      apply run_helpers_touched_marks. now apply H2.
  - intros k v. cbn. now rewrite lookup_empty.
  - pose proof (validateForm_touched host validationSchema options st st) as Ht.
    destruct (validateForm host validationSchema options st st) as [st' [b|]];
      cbn [fst] in *; intros k v; rewrite Ht; apply H.
Qed.

(** X17: in every state reached from the first render by any sequence of
    change, setValue, blur, submit, reset and validate operations, whatever
    the submit callbacks do with their helpers, every entry of the touched
    map is the boolean [true]. *)
Theorem touched_entries_are_true (host : Host)
    (initialValues validationSchema : gmap string JsVal) (options : Options)
    (ops : list Op) :
  touched_marks (run host initialValues validationSchema options ops
                   (init initialValues)).
Proof.
  assert (H : forall st, touched_marks st ->
            touched_marks (run host initialValues validationSchema options ops st)).
  { induction ops as [|op ops IH]; intros st Hst; [exact Hst|].
    change (run host initialValues validationSchema options (op :: ops) st)
      with (run host initialValues validationSchema options ops
              (step host initialValues validationSchema options st op).1).
    apply IH. now apply step_touched_marks. }
  apply H. intros k v. cbn. now rewrite lookup_empty.
Qed.

Lemma step_keeps_values host initialValues validationSchema options st op :
  keeps_values op ->
  values (step host initialValues validationSchema options st op).1 = values st.
Proof.
  destruct op as [name value|name value|name|onSubmit|a|]; cbn [keeps_values step];
    try done; intros H.
  - unfold handleBlur. now repeat case_match.
  - assert (Hh : forall x hs,
              Forall (fun h => match h with ResetForm _ => False | _ => True end) hs ->
              values (foldl (run_helper initialValues) x hs) = values x).
    { intros x hs Hhs. revert x. induction Hhs as [|h hs Hh _ IH]; intros x;
        [reflexivity|]. cbn [foldl]. rewrite IH. now destruct h. }
    unfold handleSubmit, validateForm.
    destruct (validateOnSubmit options).
    + destruct (validateForm_loop host validationSchema options st) as [[m b]|];
        [|reflexivity].
      destruct onSubmit as [cb|]; [destruct (negb b)|]; cbn [fst]; try reflexivity.
      cbn [values set_isSubmitting]. now rewrite Hh by now apply H.
    + destruct onSubmit as [cb|]; cbn [fst]; [|reflexivity].
      cbn [values set_isSubmitting]. now rewrite Hh by now apply H.
  - unfold validateForm.
    now destruct (validateForm_loop host validationSchema options st) as [[m b]|].
Qed.

(** X18: blur, validateForm and submit never change the form values, as
    long as no submit callback calls the [resetForm] helper: after any
    sequence of such operations the form values are what they were. *)
Theorem values_change_only_by_edits (host : Host)
    (initialValues validationSchema : gmap string JsVal) (options : Options)
    (ops : list Op) (st : State) :
  Forall keeps_values ops ->
  values (run host initialValues validationSchema options ops st) = values st.
Proof.
  intros H. revert st. induction H as [|op ops Hop _ IH]; intros st; [reflexivity|].
  change (run host initialValues validationSchema options (op :: ops) st)
    with (run host initialValues validationSchema options ops
            (step host initialValues validationSchema options st op).1).
  rewrite IH. now apply step_keeps_values.
Qed.

Lemma values_change_only_by_edits_witness :
  values (run Scenario.host0 {[ "name" := VStr "" ]} Scenario.schemaC default_options
            [Blur "name"; Validate; Submit None] (init {[ "name" := VStr "" ]}))
  = {[ "name" := VStr "" ]}.
Proof.
  refine (eq_trans
            (values_change_only_by_edits Scenario.host0 {[ "name" := VStr "" ]}
               Scenario.schemaC default_options
               [Blur "name"; Validate; Submit None]
               (init {[ "name" := VStr "" ]}) _) eq_refl).
  repeat constructor. intros cb vals [=].
Defined.

(** ** Function rules on change *)

Lemma validateField_function_rule host validationSchema options vals name value f :
  validationSchema !! name = Some f -> is_function f = true ->
  validateField host validationSchema options vals name value
  = (error ← call host f [value; VObj vals]; Ok (js_or error (VStr ""))).
Proof.
  intros Hs Hf. unfold validateField. rewrite (get_Some _ _ _ Hs).
  now destruct f.
Qed.

(** X19: a function rule run by [handleChange] receives, as its second
    argument, the form values of the render before the change: the field
    being edited still has its previous value there, while the state left by
    the handler holds the new one. *)
Theorem change_function_rule_sees_previous_values (host : Host)
    (validationSchema : gmap string JsVal) (options : Options)
    (name : string) (value : JsVal) (st : State) (f r : JsVal) :
  validateOnChange options = true ->
  truthy (get (touched st) name) = true ->
  validationSchema !! name = Some f -> is_function f = true ->
  call host f [value; VObj (values st)] = Ok r ->
  let st' := (handleChange host validationSchema options name value st).1 in
  errors st' = <[name := js_or r (VStr "")]> (errors st)
  /\ values st' !! name = Some value.
Proof.
  intros Hv Ht Hs Hf Hc st'. subst st'. unfold handleChange.
  rewrite Hv, Ht, (validateField_function_rule _ _ _ _ _ _ _ Hs Hf), Hc.
  cbn. split; [reflexivity|apply lookup_insert_eq].
Qed.

Lemma change_function_rule_sees_previous_values_witness :
  let st := {| values := {[ "nick" := VStr "old" ]};
               touched := {[ "nick" := VBool true ]};
               errors := ∅; isSubmitting := false |} in
  let st' := (handleChange Scenario.host0 {[ "nick" := VUser 1 ]} default_options
                "nick" (VStr "new") st).1 in
  errors st' = <["nick" := VStr "Must be a multiple of 3"]> ∅
  /\ values st' !! "nick" = Some (VStr "new").
Proof.
  intros st st'.
  apply (change_function_rule_sees_previous_values Scenario.host0
           {[ "nick" := VUser 1 ]} default_options "nick" (VStr "new") st
           (VUser 1) (VStr "Must be a multiple of 3")); reflexivity.
Defined.

(** ** Entries of a rule list that are not rules *)

(** X20: inside a rule list, an entry that is [undefined], a boolean or a
    number is skipped (the field resolves as it does with the entry
    removed), whereas a [null] entry that is reached makes the resolver
    throw, because its properties are read. *)
Theorem rule_list_non_rule_entries (host : Host)
    (validationSchema : gmap string JsVal) (options : Options)
    (vals : gmap string JsVal) (name : string) (value entry : JsVal)
    (pre post : list JsVal) :
  validationSchema !! name = Some (VArr (pre ++ entry :: post)) ->
  (typeof entry = TUndefined \/ typeof entry = TBoolean \/ typeof entry = TNumber ->
   validateField host validationSchema options vals name value
   = validateField host (<[name := VArr (pre ++ post)]> validationSchema)
       options vals name value)
  /\ (entry = VNull ->
      Forall (fun r => rule_step host options vals name value r = Ok None) pre ->
      validateField host validationSchema options vals name value = Throw).
Proof.
  intros Hs. split.
  - intros Ht. unfold validateField.
    rewrite (get_Some _ _ _ Hs), (get_Some _ name (VArr (pre ++ post)))
      by apply lookup_insert_eq.
    cbn [truthy negb]. apply rules_loop_skip.
    destruct entry; cbn in Ht; destruct Ht as [Ht|[Ht|Ht]]; try discriminate;
      reflexivity.
  - intros -> Hpre.
    now rewrite (validateField_list_after_prefix _ _ _ _ _ _ _ _ _ Hs Hpre).
Qed.

Lemma rule_list_non_rule_entries_witness :
  validateField Scenario.host0 {[ "name" := VArr [VBool false; VStr "required"] ]}
    default_options ∅ "name" (VStr "")
  = validateField Scenario.host0
      (<["name" := VArr [VStr "required"]]>
         {[ "name" := VArr [VBool false; VStr "required"] ]})
      default_options ∅ "name" (VStr "")
  /\ validateField Scenario.host0 {[ "name" := VArr [VNull; VStr "required"] ]}
       default_options ∅ "name" (VStr "") = Throw.
Proof.
  split.
  - assert (Hs : ({[ "name" := VArr [VBool false; VStr "required"] ]}
                    : gmap string JsVal) !! "name"
                 = Some (VArr ([] ++ VBool false :: [VStr "required"])))
      by reflexivity.
    apply (proj1 (rule_list_non_rule_entries Scenario.host0 _ default_options ∅
                    "name" (VStr "") (VBool false) _ _ Hs)).
    right. now left.
  - assert (Hs : ({[ "name" := VArr [VNull; VStr "required"] ]}
                    : gmap string JsVal) !! "name"
                 = Some (VArr ([] ++ VNull :: [VStr "required"])))
      by reflexivity.
    apply (proj2 (rule_list_non_rule_entries Scenario.host0 _ default_options ∅
                    "name" (VStr "") VNull _ _ Hs)); [reflexivity|constructor].
Defined.

(** ** Fields without a usable declaration *)

(** X21: a field that has no entry in the schema and whose name is not a
    member of [Object.prototype], or whose entry is falsy, a number or a
    boolean, has no error, whatever its value: the resolver returns the
    empty string without calling anything.  A field without an entry whose
    name is ['toString'] is different: the schema inherits a function of
    that name, which is called as a function rule and gives the error
    ['[object Undefined]']. *)
Theorem undeclared_field_has_no_error (host : Host)
    (validationSchema : gmap string JsVal) (options : Options)
    (vals : gmap string JsVal) (name : string) (value : JsVal) :
  ((validationSchema !! name = None /\ inherited name = None)
   \/ (exists d, validationSchema !! name = Some d
                 /\ (truthy d = false \/ typeof d = TNumber \/ typeof d = TBoolean)) ->
   validateField host validationSchema options vals name value = Ok (VStr ""))
  /\ (validationSchema !! "toString" = None ->
      validateField host validationSchema options vals "toString" value
      = Ok (VStr "[object Undefined]")).
Proof.
  unfold validateField. split.
  - intros [[Hn Hi]|(d & Hd & Hk)].
    + now rewrite (get_None _ _ Hn Hi).
    + rewrite (get_Some _ _ _ Hd). destruct (truthy d) eqn:Et; [|reflexivity].
      destruct Hk as [Hk|[Hk|Hk]]; [discriminate| |];
        destruct d; cbn in Hk; try discriminate; reflexivity.
  - intros Hn. now rewrite (get_inherited _ _ (VProto p_toString) Hn).
Qed.

Lemma undeclared_field_has_no_error_witness :
  validateField Scenario.host0 Scenario.schemaC default_options ∅ "email"
    (VStr "not-an-email") = Ok (VStr "")
  /\ validateField Scenario.host0 Scenario.schemaC default_options ∅ "toString"
       (VStr "v") = Ok (VStr "[object Undefined]").
Proof.
  pose proof (undeclared_field_has_no_error Scenario.host0 Scenario.schemaC
                default_options ∅ "email" (VStr "not-an-email")) as [H _].
  pose proof (undeclared_field_has_no_error Scenario.host0 Scenario.schemaC
                default_options ∅ "toString" (VStr "v")) as [_ H'].
  split.
  - apply H. left. split; reflexivity.
  - apply H'. reflexivity.
Defined.
